(** * adb-auto-provision: the provisioning core of [provision.py]

    A shallow embedding of the two classes that carry the logic of the
    program, [DeviceWorker] and [MonitorThread], and of the Python string
    operations they use, with the properties of the provisioning pipeline and
    of the polling loop stated over it.

    - Python [str] values are sequences of Unicode code points.
    - [subprocess.run], the Qt signals, [QThreadPool.start] and
      [QThread.msleep] are effects: each is recorded as an [Event] of a
      trace, and the outcome of a [subprocess.run] call (a completed process
      or a raised exception) is supplied by a bridge oracle.
    - Python exceptions are values of an error monad; [try]/[except
      Exception] is [try_except]. *)

From Stdlib Require Import String Ascii.
From Stdlib Require Import List NArith ZArith Bool Lia.
From Stdlib Require DecimalString.
Import ListNotations.

Open Scope string_scope.
Open Scope list_scope.

(* ================================================================== *)
(** ** Python strings *)
(* ================================================================== *)

Module PyStr.

(** A [str] is a sequence of code points. *)
Definition char := N.
Definition str := list char.

(** An ASCII literal of the source. *)
Definition lit (s : string) : str :=
  map N_of_ascii (list_ascii_of_string s).

Definition TAB : char := 9%N.
Definition LF : char := 10%N.
Definition CR : char := 13%N.

Fixpoint eqb (a b : str) : bool :=
  match a, b with
  | [], [] => true
  | x :: a', y :: b' => N.eqb x y && eqb a' b'
  | _, _ => false
  end.

(** [str.isspace] on one code point: the ASCII white space table
    (0x09-0x0D, 0x1C-0x20) and the Unicode white space characters. *)
Definition isspace (c : char) : bool :=
  ((9 <=? c) && (c <=? 13) || (28 <=? c) && (c <=? 32)
   || (c =? 133) || (c =? 160) || (c =? 5760)
   || (8192 <=? c) && (c <=? 8202)
   || (c =? 8232) || (c =? 8233) || (c =? 8239) || (c =? 8287)
   || (c =? 12288))%N.

(** The line boundaries of [str.splitlines]: LF, VT, FF, CR, FS, GS, RS,
    NEL, LINE SEPARATOR and PARAGRAPH SEPARATOR. *)
Definition islinebreak (c : char) : bool :=
  ((10 <=? c) && (c <=? 13) || (28 <=? c) && (c <=? 30)
   || (c =? 133) || (c =? 8232) || (c =? 8233))%N.

Fixpoint dropwhile (p : char -> bool) (s : str) : str :=
  match s with
  | [] => []
  | c :: s' => if p c then dropwhile p s' else s
  end.

Definition lstrip (s : str) : str := dropwhile isspace s.
Definition rstrip (s : str) : str := rev (dropwhile isspace (rev s)).

(** [s.strip()] *)
Definition strip (s : str) : str := lstrip (rstrip s).

(** [s.endswith(suffix)] *)
Definition endswith (s suffix : str) : bool :=
  (length suffix <=? length s)%nat
  && eqb (skipn (length s - length suffix) s) suffix.

(** [s.split(sep)] for a separator of one character: the pieces between
    the occurrences of [sep]; never the empty list. *)
Fixpoint split (s : str) (sep : char) : list str :=
  match s with
  | [] => [[]]
  | c :: s' =>
      if (c =? sep)%N then [] :: split s' sep
      else match split s' sep with
           | piece :: pieces => (c :: piece) :: pieces
           | [] => [[c]]
           end
  end.

(** [sep.join(pieces)] for a separator of one character; it undoes
    [split]. *)
Fixpoint join (sep : char) (pieces : list str) : str :=
  match pieces with
  | [] => []
  | [piece] => piece
  | piece :: pieces' => piece ++ sep :: join sep pieces'
  end.

(** [s.splitlines()]: [cur] is the line being read.  A CR directly
    followed by LF is one boundary; a final line without a boundary is
    kept, and no empty line is added after a final boundary. *)
Fixpoint splitlines_from (cur s : str) : list str :=
  match s with
  | [] => match cur with [] => [] | _ => [cur] end
  | c :: s' =>
      if islinebreak c then
        match s' with
        | c' :: s'' =>
            if (c =? CR)%N && (c' =? LF)%N
            then cur :: splitlines_from [] s''
            else cur :: splitlines_from [] s'
        | [] => [cur]
        end
      else splitlines_from (cur ++ [c]) s'
  end.

Definition splitlines (s : str) : list str := splitlines_from [] s.

(** [str(n)] of an [int]. *)
Definition of_int (n : Z) : str :=
  lit (DecimalString.NilZero.string_of_int (Z.to_int n)).

End PyStr.

Import PyStr.

(* ================================================================== *)
(** ** Effects: the device bridge, the signals, the pool, the clock *)
(* ================================================================== *)

(** An instance of [Exception]; [exn_str e] is [str(e)]. *)
Record Exn := { exn_str : str }.

(** The [CompletedProcess] of [subprocess.run(..., capture_output=True)]. *)
Record CompletedProcess := { stdout : str; returncode : Z }.

(** What one [subprocess.run] call does: it raises (the executable cannot
    be spawned, the timeout expires, ...) or it returns. *)
Inductive Outcome :=
| Raises (e : Exn)
| Returns (r : CompletedProcess).

(** The fields of a [DeviceWorker] ([signals] is the shared event channel,
    which the trace stands for). *)
Record DeviceWorker := { serial : str; adb : str }.

(** What the program does to the outside, in the order it does it. *)
Inductive Event :=
| Log (message : str)                               (* signals.log.emit *)
| DeviceCount (count : nat)                         (* signals.device_count.emit *)
| SubprocessRun (argv : list str) (timeout : option Z)
| PoolStart (worker : DeviceWorker)                 (* threadpool.start *)
| Msleep (ms : Z)                                   (* self.msleep *)
| SetRunning (flag : bool)                          (* self.running = flag *)
| PoolClear                                         (* threadpool.clear *)
| PoolWaitForDone (ms : Z)                          (* threadpool.waitForDone *)
| ThreadQuit                                        (* self.quit *)
| ThreadWait (ms : Z).                              (* self.wait *)

(** The device bridge: the outcome of the [k]-th [subprocess.run] call when
    it is made with [argv]. *)
Definition Bridge := nat -> list str -> Outcome.

Record World := { bridge : Bridge; ncalls : nat; trace : list Event }.

(** Computations that emit events, call the bridge and may raise. *)
Definition M (A : Type) : Type := World -> (Exn + A) * World.

Definition ret {A} (a : A) : M A := fun w => (inr a, w).

Definition bind {A B} (m : M A) (k : A -> M B) : M B :=
  fun w => match m w with
           | (inl e, w') => (inl e, w')
           | (inr a, w') => k a w'
           end.

Notation "x <- m ;; k" := (bind m (fun x => k))
  (at level 61, m at next level, right associativity).
Notation "m ;;; k" := (bind m (fun _ => k))
  (at level 61, right associativity).

Definition emit (ev : Event) : M unit :=
  fun w => (inr tt, {| bridge := bridge w; ncalls := ncalls w;
                       trace := trace w ++ [ev] |}).

(** [subprocess.run(argv, capture_output=True, timeout=timeout)] *)
Definition subprocess_run (argv : list str) (timeout : option Z)
  : M CompletedProcess :=
  fun w =>
    let w' := {| bridge := bridge w; ncalls := S (ncalls w);
                 trace := trace w ++ [SubprocessRun argv timeout] |} in
    match bridge w (ncalls w) argv with
    | Raises e => (inl e, w')
    | Returns r => (inr r, w')
    end.

(** [try: body / except Exception as e: handler e] *)
Definition try_except {A} (body : M A) (handler : Exn -> M A) : M A :=
  fun w => match body w with
           | (inl e, w') => handler e w'
           | (inr a, w') => (inr a, w')
           end.

(** [for x in xs: body x] *)
Fixpoint for_each {A} (xs : list A) (body : A -> M unit) : M unit :=
  match xs with
  | [] => ret tt
  | x :: xs' => body x ;;; for_each xs' body
  end.

(** How a block ends: by falling through to the next statement or by a
    [return]. *)
Inductive Flow := Next | Return.

(* ================================================================== *)
(** ** class DeviceWorker *)
(* ================================================================== *)

Module Worker.

(** [DeviceWorker(serial, signals)]; [bundled_adb] is what
    [get_bundled_adb()] resolves to. *)
Definition init (bundled_adb : str) (serial : str) : DeviceWorker :=
  {| serial := serial; adb := bundled_adb |}.

Definition processing_msg (self : DeviceWorker) : str :=
  lit "[+] Processing " ++ serial self.
Definition boot_timeout_msg (self : DeviceWorker) : str :=
  lit "[!] " ++ serial self ++ lit " boot timeout".
Definition boot_failed_msg (e : Exn) : str :=
  lit "[!] Boot check failed: " ++ exn_str e.
(** "[✓] Done <serial>"; the check mark is U+2713. *)
Definition done_msg (self : DeviceWorker) : str :=
  [91; 10003; 93]%N ++ lit " Done " ++ serial self.

Definition boot_check (self : DeviceWorker) : list str :=
  [adb self; lit "-s"; serial self; lit "shell"; lit "getprop";
   lit "sys.boot_completed"].

Definition wake (self : DeviceWorker) : list str :=
  [adb self; lit "-s"; serial self; lit "shell"; lit "input";
   lit "keyevent"; lit "82"].

Definition commands (self : DeviceWorker) : list (list str) :=
  [ [adb self; lit "-s"; serial self; lit "shell"; lit "pm";
     lit "disable-user"; lit "--user"; lit "0";
     lit "com.google.android.setupwizard"];
    [adb self; lit "-s"; serial self; lit "shell"; lit "am";
     lit "broadcast"; lit "-a";
     lit "android.provider.Telephony.SECRET_CODE"; lit "-d";
     lit "android_secret_code://ussd"] ].

(** Lines 67-79: the boot check inside its [try]. *)
Definition wait_for_boot (self : DeviceWorker) : M Flow :=
  try_except
    (r <- subprocess_run (boot_check self) (Some 120%Z) ;;
     if negb (eqb (strip (stdout r)) (lit "1"))
     then emit (Log (boot_timeout_msg self)) ;;; ret Return
     else ret Next)
    (fun e => emit (Log (boot_failed_msg e)) ;;; ret Return).

(** Lines 81-100: the wake key event, the provisioning commands and the
    final log line; none of them is inside a [try]. *)
Definition provision (self : DeviceWorker) : M unit :=
  _ <- subprocess_run (wake self) None ;;
  for_each (commands self)
    (fun cmd => _ <- subprocess_run cmd None ;; ret tt) ;;;
  emit (Log (done_msg self)).

(** [DeviceWorker.run] *)
Definition run (self : DeviceWorker) : M unit :=
  emit (Log (processing_msg self)) ;;;
  flow <- wait_for_boot self ;;
  match flow with
  | Return => ret tt
  | Next => provision self
  end.

(** One run against a bridge: what [run] raises or returns, and its
    trace. *)
Definition exec (self : DeviceWorker) (b : Bridge)
  : (Exn + unit) * list Event :=
  let '(res, w) := run self {| bridge := b; ncalls := 0; trace := [] |} in
  (res, trace w).

(** The [subprocess.run] calls of a trace, in order. *)
Fixpoint invocations (tr : list Event) : list (list str) :=
  match tr with
  | [] => []
  | SubprocessRun argv _ :: tr' => argv :: invocations tr'
  | _ :: tr' => invocations tr'
  end.

(** The log lines of a trace, in order. *)
Fixpoint logs (tr : list Event) : list str :=
  match tr with
  | [] => []
  | Log m :: tr' => m :: logs tr'
  | _ :: tr' => logs tr'
  end.

End Worker.

(* ================================================================== *)
(** ** The worker pool *)
(* ================================================================== *)

(** The state of a [QThreadPool]: its thread limit, the tasks that are
    running and the tasks that wait for a thread. *)
Record QThreadPool := {
  maxThreadCount : Z;
  active : list DeviceWorker;
  queued : list DeviceWorker
}.

Module Pool.

(** Modelled from the spec: the Worker Pool is Qt's [QThreadPool], whose
    code is not part of the repository.  [configure] of section 4.3, which
    is [QThreadPool()] followed by [setMaxThreadCount(n)], sets the
    ceiling of an empty pool. *)
Definition configure (n : Z) : QThreadPool :=
  {| maxThreadCount := n; active := []; queued := [] |}.

(** Modelled from the spec: [submit] of section 4.3, which is
    [QThreadPool.start]: the task starts at once if fewer than the
    ceiling are active, and is held at the end of a FIFO queue
    otherwise. *)
Definition start (p : QThreadPool) (task : DeviceWorker) : QThreadPool :=
  if (Z.of_nat (length (active p)) <? maxThreadCount p)%Z
  then {| maxThreadCount := maxThreadCount p;
          active := active p ++ [task]; queued := queued p |}
  else {| maxThreadCount := maxThreadCount p;
          active := active p; queued := queued p ++ [task] |}.

Fixpoint remove_nth {A} (i : nat) (xs : list A) : list A :=
  match i, xs with
  | _, [] => []
  | O, _ :: xs' => xs'
  | S i', x :: xs' => x :: remove_nth i' xs'
  end.

(** Modelled from the spec: a queued task is held "until a slot frees"
    (section 4.3): when the [i]-th active task finishes, its slot is freed
    and the oldest queued task, if there is one, takes it. *)
Definition task_done (p : QThreadPool) (i : nat) : QThreadPool :=
  if (i <? length (active p))%nat then
    match queued p with
    | [] => {| maxThreadCount := maxThreadCount p;
               active := remove_nth i (active p); queued := [] |}
    | next :: rest =>
        {| maxThreadCount := maxThreadCount p;
           active := remove_nth i (active p) ++ [next]; queued := rest |}
    end
  else p.

(** Modelled from the spec: [shutdown] of section 4.3 "discards
    queued-but-not-started tasks", which is [QThreadPool.clear]; the
    active tasks are left alone. *)
Definition clear (p : QThreadPool) : QThreadPool :=
  {| maxThreadCount := maxThreadCount p; active := active p; queued := [] |}.

(** What can happen to a pool. *)
Inductive Op :=
| Submit (task : DeviceWorker)
| Finish (i : nat)
| Clear.

Definition apply (p : QThreadPool) (op : Op) : QThreadPool :=
  match op with
  | Submit task => start p task
  | Finish i => task_done p i
  | Clear => clear p
  end.

Definition run_ops (ops : list Op) (p : QThreadPool) : QThreadPool :=
  fold_left apply ops p.

(** A pool within its limit [n]: at most [n] tasks are active, and tasks
    wait only while [n] are. *)
Definition within (n : Z) (p : QThreadPool) : Prop :=
  maxThreadCount p = n
  /\ (Z.of_nat (length (active p)) <= n)%Z
  /\ (queued p <> [] -> Z.of_nat (length (active p)) = n).

End Pool.

(* ================================================================== *)
(** ** class MonitorThread *)
(* ================================================================== *)

Record MonitorThread := {
  monitor_adb : str;          (* self.adb *)
  max_devices : Z;
  running : bool;
  threadpool : QThreadPool
}.

Module Monitor.

Definition POLL_INTERVAL_MS : Z := 2000.   (* line 141 *)
Definition POLL_ERROR_MS : Z := 1000.      (* line 145 *)
Definition POOL_GRACE_MS : Z := 3000.      (* line 150 *)
Definition THREAD_WAIT_MS : Z := 5000.     (* line 152 *)

Definition started_msg (self : MonitorThread) : str :=
  lit "Monitoring started (max " ++ of_int (max_devices self)
  ++ lit " devices)".
Definition poll_error_msg (e : Exn) : str :=
  lit "[!] Poll error: " ++ exn_str e.

Definition IndexError : Exn :=
  {| exn_str := lit "list index out of range" |}.

(** [xs[0]] *)
Definition index0 (xs : list str) : M str :=
  match xs with
  | x :: _ => ret x
  | [] => fun w => (inl IndexError, w)
  end.

(** The suffix of a row of a connected device: a tab and "device". *)
Definition READY_SUFFIX : str := TAB :: lit "device".

(** The enumeration command of line 125. *)
Definition enumerate (self : MonitorThread) : list str :=
  [monitor_adb self; lit "devices"].

(** Lines 131-133: the loop over the lines, appending to [devices]. *)
Fixpoint collect (lines : list str) (devices : list str) : M (list str) :=
  match lines with
  | [] => ret devices
  | line :: rest =>
      if endswith (strip line) READY_SUFFIX
      then s <- index0 (split line TAB) ;; collect rest (devices ++ [s])
      else collect rest devices
  end.

Section WithResolver.

(** What [get_bundled_adb()] resolves to while the monitor runs. *)
Variable bundled_adb : str.

(** [MonitorThread(max_devices, signals)] *)
Definition init (max_devices : Z) : MonitorThread :=
  {| monitor_adb := bundled_adb; max_devices := max_devices;
     running := false; threadpool := Pool.configure max_devices |}.

(** Lines 123-145: the body of the [while] loop. *)
Definition poll_cycle (self : MonitorThread) : M unit :=
  try_except
    (r <- subprocess_run (enumerate self) None ;;
     devices <- collect (tl (splitlines (stdout r))) [] ;;
     emit (DeviceCount (length devices)) ;;;
     for_each devices
       (fun serial => emit (PoolStart (Worker.init bundled_adb serial))) ;;;
     emit (Msleep POLL_INTERVAL_MS))
    (fun e =>
       emit (Log (poll_error_msg e)) ;;;
       emit (Msleep POLL_ERROR_MS)).

(** One cycle, the [n]-th, against the bridge [polls]: what the body
    raises or returns, and the events it performs. *)
Definition cycle (self : MonitorThread) (polls : Bridge) (n : nat)
  : (Exn + unit) * list Event :=
  let '(res, w) :=
    poll_cycle self {| bridge := polls; ncalls := n; trace := [] |} in
  (res, trace w).

(** Lines 147-152: the calls of [stop], in order. *)
Definition stop_body : list Event :=
  [SetRunning false; PoolClear; PoolWaitForDone POOL_GRACE_MS;
   ThreadQuit; ThreadWait THREAD_WAIT_MS].

(** The longest a call blocks its caller: the two waits of [stop] give
    up after their timeout, [msleep] sleeps the whole interval. *)
Definition blocks_at_most (ev : Event) : Z :=
  match ev with
  | PoolWaitForDone ms | ThreadWait ms | Msleep ms => ms
  | _ => 0%Z
  end.

(** Where the thread that executes [run] is. *)
Inductive PC :=
| AtEntry                       (* [run] has not begun *)
| AtAnnounce                    (* line 120 *)
| InLoop (todo : list Event) (pending : option Exn)
    (* in the [while]: [todo] is what is left of the cycle in progress
       and [pending] an exception its body raised; with nothing left,
       the thread is at the test of line 122 *)
| Exited                        (* [run] returned *)
| Crashed (e : Exn).            (* an exception left [run] *)

(** The monitor object, the thread that runs it, the caller of [stop],
    and everything done so far. *)
Record Config := {
  self : MonitorThread;
  pc : PC;
  cycles : nat;                 (* poll cycles begun *)
  stop_todo : list Event;       (* what is left of [stop] *)
  history : list Event
}.

Definition set_running (m : MonitorThread) (b : bool) : MonitorThread :=
  {| monitor_adb := monitor_adb m; max_devices := max_devices m;
     running := b; threadpool := threadpool m |}.

Definition set_pool (m : MonitorThread) (p : QThreadPool) : MonitorThread :=
  {| monitor_adb := monitor_adb m; max_devices := max_devices m;
     running := running m; threadpool := p |}.

(** The effect of an event on the monitor object. *)
Definition effect (ev : Event) (m : MonitorThread) : MonitorThread :=
  match ev with
  | SetRunning b => set_running m b
  | PoolStart w => set_pool m (Pool.start (threadpool m) w)
  | PoolClear => set_pool m (Pool.clear (threadpool m))
  | _ => m
  end.

(** Performing one event. *)
Definition perform (ev : Event) (c : Config) (pc' : PC)
  (stop' : list Event) : Config :=
  {| self := effect ev (self c); pc := pc'; cycles := cycles c;
     stop_todo := stop'; history := history c ++ [ev] |}.

Definition goto (c : Config) (pc' : PC) (n : nat) : Config :=
  {| self := self c; pc := pc'; cycles := n;
     stop_todo := stop_todo c; history := history c |}.

(** One step of the thread that executes [run]. *)
Definition monitor_step (polls : Bridge) (c : Config) : Config :=
  match pc c with
  | AtEntry => perform (SetRunning true) c AtAnnounce (stop_todo c)
  | AtAnnounce =>
      perform (Log (started_msg (self c))) c (InLoop [] None) (stop_todo c)
  | InLoop (ev :: todo) pending =>
      perform ev c (InLoop todo pending) (stop_todo c)
  | InLoop [] (Some e) => goto c (Crashed e) (cycles c)
  | InLoop [] None =>
      if running (self c) then
        match cycle (self c) polls (cycles c) with
        | (inr _, evs) => goto c (InLoop evs None) (S (cycles c))
        | (inl e, evs) => goto c (InLoop evs (Some e)) (S (cycles c))
        end
      else goto c Exited (cycles c)
  | Exited => c
  | Crashed _ => c
  end.

(** One step of the caller of [stop]. *)
Definition stop_step (c : Config) : Config :=
  match stop_todo c with
  | [] => c
  | ev :: rest => perform ev c (pc c) rest
  end.

(** A pool thread finishes the [i]-th active task. *)
Definition finish_step (i : nat) (c : Config) : Config :=
  {| self := set_pool (self c) (Pool.task_done (threadpool (self c)) i);
     pc := pc c; cycles := cycles c; stop_todo := stop_todo c;
     history := history c |}.

(** Who moves next. *)
Inductive Actor :=
| Mon                  (* the thread that executes [run] *)
| Stop                 (* the caller of [stop] *)
| Done (i : nat).      (* a pool thread *)

Definition step (polls : Bridge) (c : Config) (a : Actor) : Config :=
  match a with
  | Mon => monitor_step polls c
  | Stop => stop_step c
  | Done i => finish_step i c
  end.

(** An interleaving of the three. *)
Definition exec (polls : Bridge) (sched : list Actor) (c : Config)
  : Config :=
  fold_left (step polls) sched c.

(** A monitor on which [start()] has been called and [stop()] will be. *)
Definition initial (max_devices : Z) : Config :=
  {| self := init max_devices; pc := AtEntry; cycles := 0;
     stop_todo := stop_body; history := [] |}.

(** The events of the loop, as opposed to the statements of [stop] and to
    line 119. *)
Definition of_loop (ev : Event) : bool :=
  match ev with
  | Log _ | DeviceCount _ | SubprocessRun _ _ | PoolStart _ | Msleep _ => true
  | _ => false
  end.

Definition loop_events (evs : list Event) : list Event := filter of_loop evs.

(** What the thread still has to do before it is next at the test of line
    122 (or has left [run]). *)
Definition remaining (c : Config) : list Event :=
  match pc c with
  | AtEntry => [SetRunning true; Log (started_msg (self c))]
  | AtAnnounce => [Log (started_msg (self c))]
  | InLoop todo _ => todo
  | Exited | Crashed _ => []
  end.

(** The thread has not left [run]. *)
Definition alive (c : Config) : bool :=
  match pc c with
  | Exited | Crashed _ => false
  | _ => true
  end.

(** A monitor on which [stop] has not begun: the flag is set from line 119
    on, and the thread is inside [run] with only events of the loop ahead
    of it. *)
Definition looping (max : Z) (c : Config) : Prop :=
  monitor_adb (self c) = bundled_adb
  /\ max_devices (self c) = max
  /\ stop_todo c = stop_body
  /\ match pc c with
     | AtEntry => True
     | AtAnnounce => running (self c) = true
     | InLoop todo pending =>
         running (self c) = true /\ pending = None
         /\ forallb of_loop todo = true
     | Exited | Crashed _ => False
     end.

(** A monitor on which [stop] has begun, after [run] had: the flag is
    cleared for good, and the thread has only events of the loop ahead of
    it. *)
Definition stopping (c : Config) : Prop :=
  running (self c) = false
  /\ pc c <> AtEntry
  /\ incl (stop_todo c) (tl stop_body)
  /\ forallb of_loop (remaining c) = true.

(** The statements of [stop] and line 119. *)
Definition stop_events (evs : list Event) : list Event :=
  filter (fun ev => negb (of_loop ev)) evs.

(** [c'] comes after [c] without a new poll cycle: the thread has gone on
    with what it had left and [stop] with what it had left, and nothing
    else was done. *)
Definition winds_down (c c' : Config) : Prop :=
  cycles c' = cycles c
  /\ (exists evs, history c' = history c ++ evs)
  /\ loop_events (history c') ++ remaining c'
     = loop_events (history c) ++ remaining c
  /\ stop_events (history c') ++ stop_todo c'
     = stop_events (history c) ++ stop_todo c.

End WithResolver.

End Monitor.

(* ================================================================== *)
(** ** What the specification asks of a run, as predicates on the model *)
(* ================================================================== *)

Module Stated.

(** A call has failed when it raised or exited with a non-zero status. *)
Definition failed (o : Outcome) : bool :=
  match o with
  | Raises _ => true
  | Returns r => negb (returncode r =? 0)%Z
  end.

(** The device answers the boot check with the ready sentinel. *)
Definition passes_readiness (self : DeviceWorker) (b : Bridge) : Prop :=
  exists r, b 0 (Worker.boot_check self) = Returns r
            /\ strip (stdout r) = lit "1".

(** The batch as the specification words it: every command once and in
    order after the boot check and the wake call, every failure of a
    command logged, and one success line, the last event of the run. *)
Definition batch_best_effort (self : DeviceWorker) (b : Bridge) : Prop :=
  let tr := snd (Worker.exec self b) in
  Worker.invocations tr
  = Worker.boot_check self :: Worker.wake self :: Worker.commands self
  /\ (forall k cmd,
         nth_error (Worker.commands self) k = Some cmd ->
         failed (b (2 + k) cmd) = true ->
         exists m, In m (Worker.logs tr)
                   /\ m <> Worker.processing_msg self
                   /\ m <> Worker.done_msg self)
  /\ count_occ (list_eq_dec N.eq_dec) (Worker.logs tr) (Worker.done_msg self) = 1
  /\ last tr (Msleep 0) = Log (Worker.done_msg self).

(** The enumeration output as a table: the lines after the header line are
    its rows, and the columns of a row are separated by tabs. *)
Definition rows (out : str) : list str := tl (splitlines out).

Definition columns (row : str) : list str := split row TAB.

(** What line 132 looks at: the last column of the trimmed row, when there
    is a column before it.  It is not the second column of the table: a
    row without an identifier has none after trimming, and a row of three
    columns has its third. *)
Definition status_field (row : str) : option str :=
  match rev (columns (strip row)) with
  | status :: _ :: _ => Some status
  | _ => None
  end.

(** The test of line 132 in these terms: that last column is "device". *)
Definition is_ready (row : str) : bool :=
  match status_field row with
  | Some status => eqb status (lit "device")
  | None => false
  end.

(** The identifier of a row is its first column. *)
Definition identifier (row : str) : str := hd [] (columns row).

Definition ready_rows (out : str) : list str := filter is_ready (rows out).

(** A poll cycle as the specification describes it for an enumeration that
    returns [out]: the enumeration, the count of the ready rows, one worker
    submitted per ready row with the identifier of the row, in the order of
    the rows, and the sleep until the next poll. *)
Definition returned_events (bundled_adb : str) (self : MonitorThread)
  (out : str) : list Event :=
  [SubprocessRun (Monitor.enumerate self) None;
   DeviceCount (length (ready_rows out))]
  ++ map (fun row => PoolStart (Worker.init bundled_adb (identifier row)))
         (ready_rows out)
  ++ [Msleep Monitor.POLL_INTERVAL_MS].

(** The output has the shape of the table: a header line, then rows of an
    identifier column and a status column, or empty lines. *)
Definition is_table (out : str) : bool :=
  match splitlines out with
  | [] => false
  | _ :: rows =>
      forallb (fun row => match row with
                          | [] => true
                          | _ => (length (columns row) =? 2)%nat
                          end) rows
  end.


(** What the specification asks of [stop]: once it has begun, which is
    when it clears the flag, nothing is submitted to the pool. *)
Definition no_submission_after_stop (h : list Event) : Prop :=
  forall before after w,
    h = before ++ SetRunning false :: after -> ~ In (PoolStart w) after.

End Stated.

(* ================================================================== *)
(** ** Concrete devices and bridges *)
(* ================================================================== *)

Module Sample.

Definition worker : DeviceWorker :=
  Worker.init (lit "adb") (lit "emulator-5554").

Definition ok (out : str) : Outcome :=
  Returns {| stdout := out; returncode := 0 |}.

Definition too_many_files : Exn :=
  {| exn_str := lit "[Errno 24] Too many open files" |}.

(** The boot check answers "0". *)
Definition not_booted : Bridge := fun _ _ => ok (lit "0" ++ [LF]).

(** Every call answers "1". *)
Definition always_ready : Bridge := fun _ _ => ok (lit "1" ++ [LF]).

(** The device is ready; every later call fails to spawn. *)
Definition wake_cannot_spawn : Bridge := fun k _ =>
  match k with
  | 0 => ok (lit "1" ++ [LF])
  | _ => Raises too_many_files
  end.

(** The device is ready; the first provisioning command exits with
    status 1. *)
Definition first_command_fails : Bridge := fun k _ =>
  match k with
  | 0 => ok (lit "1" ++ [LF])
  | 2 => Returns {| stdout := []; returncode := 1 |}
  | _ => ok []
  end.

Definition monitor : MonitorThread := Monitor.init (lit "adb") 2.

(** Three rows: two connected devices and one that is offline. *)
Definition two_of_three : str :=
  lit "List of devices attached" ++ [LF]
  ++ lit "emulator-5554" ++ [TAB] ++ lit "device" ++ [LF]
  ++ lit "0123456789ABCDEF" ++ [TAB] ++ lit "offline" ++ [LF]
  ++ lit "emulator-5556" ++ [TAB] ++ lit "device" ++ [LF] ++ [LF].

(** One line, and it is the row of a connected device. *)
Definition ready_row_first : str :=
  lit "emulator-5554" ++ [TAB] ++ lit "device".


(** The table with one row cut short and the row of a connected device. *)
Definition garbage_and_row : str :=
  lit "List of devices attached" ++ [LF]
  ++ lit "0123456" ++ [LF]
  ++ lit "emulator-5554" ++ [TAB] ++ lit "device" ++ [LF].

(** [stop] begins when the loop has enumerated and counted, and is about to
    submit. *)
Definition stop_mid_cycle : list Monitor.Actor :=
  repeat Monitor.Mon 5 ++ repeat Monitor.Stop 2 ++ repeat Monitor.Mon 4
  ++ repeat Monitor.Stop 3.

End Sample.

(* ================================================================== *)
(** ** The pipeline of a worker, call by call *)
(* ================================================================== *)

Module Pipeline.

(** The calls of a complete run, in order (lines 68, 82 and 97). *)
Definition calls (self : DeviceWorker) : list (list str) :=
  Worker.boot_check self :: Worker.wake self :: Worker.commands self.

(** The [k]-th call of the pipeline. *)
Definition call (self : DeviceWorker) (k : nat) : list str :=
  nth k (calls self) [].

Definition run_event (argv : list str) : Event := SubprocessRun argv None.

(** The ways a run can go, by what the bridge answers. *)
Inductive Shape (self : DeviceWorker) (b : Bridge)
  : (Exn + unit) * list Event -> Prop :=
| BootRaises e :
    b 0 (call self 0) = Raises e ->
    Shape self b
      (inr tt, [Log (Worker.processing_msg self);
                SubprocessRun (call self 0) (Some 120%Z);
                Log (Worker.boot_failed_msg e)])
| NotReady r :
    b 0 (call self 0) = Returns r ->
    strip (stdout r) <> lit "1" ->
    Shape self b
      (inr tt, [Log (Worker.processing_msg self);
                SubprocessRun (call self 0) (Some 120%Z);
                Log (Worker.boot_timeout_msg self)])
| CallRaises r k e :
    b 0 (call self 0) = Returns r ->
    strip (stdout r) = lit "1" ->
    1 <= k <= 3 ->
    (forall j, 1 <= j < k -> exists r', b j (call self j) = Returns r') ->
    b k (call self k) = Raises e ->
    Shape self b
      (inl e, [Log (Worker.processing_msg self);
               SubprocessRun (call self 0) (Some 120%Z)]
              ++ map run_event (firstn k (tl (calls self))))
| Completes r :
    b 0 (call self 0) = Returns r ->
    strip (stdout r) = lit "1" ->
    (forall j, 1 <= j <= 3 -> exists r', b j (call self j) = Returns r') ->
    Shape self b
      (inr tt, [Log (Worker.processing_msg self);
                SubprocessRun (call self 0) (Some 120%Z)]
               ++ map run_event (tl (calls self))
               ++ [Log (Worker.done_msg self)]).

(** A string of white space only. *)
Definition blank (s : str) : Prop := Forall (fun c => isspace c = true) s.

(** The boot check runs into its timeout of 120 seconds. *)
Definition timed_out : Exn :=
  {| exn_str := lit "Command timed out after 120 seconds" |}.

Definition boot_times_out : Bridge := fun _ _ => Raises timed_out.

End Pipeline.

(* ================================================================== *)
(** ** The loop over several cycles *)
(* ================================================================== *)

Module Cycles.

(** The workers submitted in a history, in order. *)
Fixpoint submissions (evs : list Event) : list DeviceWorker :=
  match evs with
  | [] => []
  | PoolStart w :: evs' => w :: submissions evs'
  | _ :: evs' => submissions evs'
  end.

(** The monitor object after the events [evs]. *)
Definition after_events (evs : list Event) (m : MonitorThread)
  : MonitorThread :=
  fold_left (fun m ev => Monitor.effect ev m) evs m.

(** A monitor whose [stop] cleared the flag before [run] began: [stop]
    has only its later statements left, and the thread is where a looping
    thread is. *)
Definition unstoppable (c : Monitor.Config) : Prop :=
  incl (Monitor.stop_todo c) (tl Monitor.stop_body)
  /\ match Monitor.pc c with
     | Monitor.AtEntry => True
     | Monitor.AtAnnounce => running (Monitor.self c) = true
     | Monitor.InLoop todo pending =>
         running (Monitor.self c) = true /\ pending = None
         /\ forallb Monitor.of_loop todo = true
     | Monitor.Exited | Monitor.Crashed _ => False
     end.

(** The first poll finds two connected devices; from the second on the
    executable cannot be spawned. *)
Definition fails_after_first : Bridge := fun k _ =>
  match k with
  | 0 => Sample.ok Sample.two_of_three
  | _ => Raises Sample.too_many_files
  end.


End Cycles.

(* ================================================================== *)
(** ** class MainWindow: the log view and the controls *)
(* ================================================================== *)

Module Gui.

(** [s.startswith(prefix)] *)
Fixpoint startswith (s prefix : str) : bool :=
  match prefix, s with
  | [], _ => true
  | p :: prefix', c :: s' => (c =? p)%N && startswith s' prefix'
  | _ :: _, [] => false
  end.

(** [needle in s] *)
Fixpoint contains (s needle : str) : bool :=
  startswith s needle
  || match s with
     | [] => false
     | _ :: s' => contains s' needle
     end.

(** The words of line 278. *)
Definition FAILURE_WORDS : list str :=
  [lit "!"; lit "error"; lit "failed"; lit "timeout"].

Definition RED : str := lit "<span style='color:#ff4444;font-weight:bold'>".
Definition GREEN : str := lit "<span style='color:#44ff44'>".

(** What a [QSpinBox] with [setRange(lo, hi)] holds when it is given [v]. *)
Definition spin (lo hi v : Z) : Z := Z.max lo (Z.min hi v).

(** How the settings dialog ends: rejected, or accepted with the spin box
    as it was opened or with the number the user entered. *)
Inductive Dialog :=
| Rejected
| Accepted (entered : option Z).

(** Calls on monitor threads. *)
Inductive ThreadCall :=
| ThreadStarted (m : MonitorThread)      (* m.start() *)
| ThreadStopped (m : MonitorThread).     (* m.stop() *)

(** The window: [self.max_devices], [self.monitor_thread], the stored
    setting, the state of the two buttons and of the two labels, and the
    blocks given to the log view by [appendHtml]. *)
Record MainWindow := {
  window_max_devices : Z;
  monitor_thread : option MonitorThread;
  stored_max_devices : option Z;
  start_enabled : bool;
  stop_enabled : bool;
  status_label : str;
  device_label : str;
  appended : list str
}.

Section WithEnvironment.

(** [str.lower], which goes by the Unicode case tables. *)
Variable lower : str -> str.

(** What [get_bundled_adb()] resolves to. *)
Variable bundled_adb : str.

(** Line 278: [any(k in text.lower() for k in [...])]. *)
Definition is_failure (text : str) : bool :=
  existsb (contains (lower text)) FAILURE_WORDS.

(** Lines 277-281: the block for [text] at the time [ts]. *)
Definition render (ts text : str) : str :=
  lit "[" ++ ts ++ lit "] "
  ++ (if is_failure text then RED else GREEN) ++ text ++ lit "</span>".

(** [MainWindow.append_log] *)
Definition append_log (ts text : str) (w : MainWindow) : MainWindow :=
  {| window_max_devices := window_max_devices w;
     monitor_thread := monitor_thread w;
     stored_max_devices := stored_max_devices w;
     start_enabled := start_enabled w;
     stop_enabled := stop_enabled w;
     status_label := status_label w;
     device_label := device_label w;
     appended := appended w ++ [render ts text] |}.

(** [MainWindow.update_device_count] *)
Definition update_device_count (count : Z) (w : MainWindow) : MainWindow :=
  {| window_max_devices := window_max_devices w;
     monitor_thread := monitor_thread w;
     stored_max_devices := stored_max_devices w;
     start_enabled := start_enabled w;
     stop_enabled := stop_enabled w;
     status_label := status_label w;
     device_label := lit "Devices: " ++ of_int count;
     appended := appended w |}.

(** The three widget calls and the assignment that [start_monitoring] and
    [stop_monitoring] share. *)
Definition set_controls (thread : option MonitorThread)
  (start stop : bool) (status : str) (w : MainWindow) : MainWindow :=
  {| window_max_devices := window_max_devices w;
     monitor_thread := thread;
     stored_max_devices := stored_max_devices w;
     start_enabled := start;
     stop_enabled := stop;
     status_label := status;
     device_label := device_label w;
     appended := appended w |}.

(** [MainWindow.__init__] with [build_ui]: the limit is the stored setting,
    6 when there is none. *)
Definition init (stored : option Z) : MainWindow :=
  {| window_max_devices := match stored with Some v => v | None => 6%Z end;
     monitor_thread := None;
     stored_max_devices := stored;
     start_enabled := true;
     stop_enabled := false;
     status_label := lit "Ready";
     device_label := lit "Devices: 0";
     appended := [] |}.

(** [MainWindow.start_monitoring]; [is_running] is what
    [self.monitor_thread.isRunning()] answers. *)
Definition start_monitoring (is_running : bool) (ts : str) (w : MainWindow)
  : MainWindow * list ThreadCall :=
  match monitor_thread w, is_running with
  | Some _, true => (w, [])
  | _, _ =>
      let m := Monitor.init bundled_adb (window_max_devices w) in
      (append_log ts (lit "ADB provisioning started (embedded ADB)")
         (set_controls (Some m) false true (lit "Provisioning active") w),
       [ThreadStarted m])
  end.

(** [MainWindow.stop_monitoring] *)
Definition stop_monitoring (ts : str) (w : MainWindow)
  : MainWindow * list ThreadCall :=
  (append_log ts (lit "Provisioning stopped")
     (set_controls None true false (lit "Stopped") w),
   match monitor_thread w with
   | Some m => [ThreadStopped m]
   | None => []
   end).

(** [MainWindow.show_settings]: the spin box has the range 1..120 and is
    opened on [self.max_devices]. *)
Definition show_settings (d : Dialog) (ts : str) (w : MainWindow)
  : MainWindow :=
  match d with
  | Rejected => w
  | Accepted entered =>
      let v := spin 1 120 (match entered with
                           | Some v => v
                           | None => window_max_devices w
                           end) in
      append_log ts (lit "Settings saved: Max Devices = " ++ of_int v)
        {| window_max_devices := v;
           monitor_thread := monitor_thread w;
           stored_max_devices := Some v;
           start_enabled := start_enabled w;
           stop_enabled := stop_enabled w;
           status_label := status_label w;
           device_label := device_label w;
           appended := appended w |}
  end.

(** [MainWindow.show_about]; the dash is U+2014. *)
Definition show_about (ts : str) (w : MainWindow) : MainWindow :=
  append_log ts
    (lit "ADB Auto-Provisioner v2.3 " ++ [8212%N] ++ lit " Embedded ADB") w.

(** What reaches the window: the two buttons, the two menu entries and the
    two signals, each with the time of day it is handled at. *)
Inductive Action :=
| ClickStart (is_running : bool) (ts : str)
| ClickStop (ts : str)
| OpenSettings (d : Dialog) (ts : str)
| OpenAbout (ts : str)
| LogSignal (text : str) (ts : str)
| CountSignal (count : Z).

Definition handle (w : MainWindow) (a : Action)
  : MainWindow * list ThreadCall :=
  match a with
  | ClickStart is_running ts => start_monitoring is_running ts w
  | ClickStop ts => stop_monitoring ts w
  | OpenSettings d ts => (show_settings d ts w, [])
  | OpenAbout ts => (show_about ts w, [])
  | LogSignal text ts => (append_log ts text w, [])
  | CountSignal count => (update_device_count count w, [])
  end.

(** The window and the thread calls after a sequence of actions. *)
Fixpoint handle_all (actions : list Action) (w : MainWindow)
  : MainWindow * list ThreadCall :=
  match actions with
  | [] => (w, [])
  | a :: actions' =>
      let '(w1, calls1) := handle w a in
      let '(w2, calls2) := handle_all actions' w1 in
      (w2, calls1 ++ calls2)
  end.

(** The controls agree with [self.monitor_thread]: the Start button is
    enabled and the Stop button disabled exactly when there is no monitor,
    and the status reads "Provisioning active" exactly when there is one,
    which was created with the limit in force then, its pool included. *)
Definition consistent (w : MainWindow) : Prop :=
  start_enabled w = negb (stop_enabled w)
  /\ match monitor_thread w with
     | None =>
         start_enabled w = true
         /\ status_label w <> lit "Provisioning active"
     | Some m =>
         start_enabled w = false
         /\ status_label w = lit "Provisioning active"
         /\ maxThreadCount (threadpool m) = max_devices m
         /\ monitor_adb m = bundled_adb
     end.

End WithEnvironment.

(** Lower case by the ASCII letters alone. *)
Definition ascii_lower (s : str) : str :=
  map (fun c => if ((65 <=? c) && (c <=? 90))%N then (c + 32)%N else c) s.

End Gui.

(* ================================================================== *)
(** ** The signals, from the threads to the window *)
(* ================================================================== *)

Module Wiring.

(** Lines 203-204: [signals.log] is connected to [append_log] and
    [signals.device_count] to [update_device_count].  The events of one
    thread reach the window in the order they were emitted; [stamps i] is
    the time of day at which the [i]-th of them is handled. *)
Fixpoint deliver (lower : str -> str) (stamps : nat -> str) (i : nat)
  (evs : list Event) (w : Gui.MainWindow) : Gui.MainWindow :=
  match evs with
  | [] => w
  | Log message :: evs' =>
      deliver lower stamps (S i) evs'
        (Gui.append_log lower (stamps i) message w)
  | DeviceCount count :: evs' =>
      deliver lower stamps (S i) evs'
        (Gui.update_device_count (Z.of_nat count) w)
  | _ :: evs' => deliver lower stamps (S i) evs' w
  end.

End Wiring.

(* ================================================================== *)
(** ** The enumeration output as the table of the specification *)
(* ================================================================== *)

Module Table.






End Table.

(* ================================================================== *)
(** * Properties *)
(* ================================================================== *)

(** ** Strings *)

Lemma eqb_eq (a b : str) : eqb a b = true <-> a = b.
Proof.
  revert b; induction a as [|x a IH]; intros [|y b]; simpl;
    try (split; [discriminate | discriminate]); try tauto.
  rewrite andb_true_iff, N.eqb_eq, IH. split.
  - intros [-> ->]; reflexivity.
  - intros H; injection H; auto.
Qed.

Lemma eqb_neq (a b : str) : eqb a b = false <-> a <> b.
Proof.
  rewrite <- eqb_eq. destruct (eqb a b); split; congruence.
Qed.

Example splitlines_ex :
  splitlines (lit "ab" ++ [CR; LF] ++ lit "c" ++ [LF; LF] ++ lit "d" ++ [LF])
  = [lit "ab"; lit "c"; []; lit "d"].
Proof. reflexivity. Qed.

Example split_ex :
  split (lit "a" ++ [TAB; TAB] ++ lit "b") TAB = [lit "a"; []; lit "b"].
Proof. reflexivity. Qed.

Example strip_ex : strip ([TAB] ++ lit " 1 " ++ [LF]) = lit "1".
Proof. reflexivity. Qed.

Example of_int_ex :
  of_int 120 = lit "120" /\ of_int (-5) = lit "-5" /\ of_int 0 = lit "0".
Proof. repeat split; reflexivity. Qed.

(** ** The device worker *)

Section WorkerRuns.

Variable self : DeviceWorker.
Variable b : Bridge.

(** The boot check raises: the exception is logged and the run ends. *)
Lemma exec_boot_raises e :
  b 0 (Worker.boot_check self) = Raises e ->
  Worker.exec self b
  = (inr tt, [Log (Worker.processing_msg self);
              SubprocessRun (Worker.boot_check self) (Some 120%Z);
              Log (Worker.boot_failed_msg e)]).
Proof.
  intros E. unfold Worker.exec, Worker.run, Worker.wait_for_boot,
    bind, try_except, subprocess_run, emit, ret. simpl. rewrite E.
  reflexivity.
Qed.

(** The boot check answers something else than "1". *)
Lemma exec_boot_not_ready r :
  b 0 (Worker.boot_check self) = Returns r ->
  strip (stdout r) <> lit "1" ->
  Worker.exec self b
  = (inr tt, [Log (Worker.processing_msg self);
              SubprocessRun (Worker.boot_check self) (Some 120%Z);
              Log (Worker.boot_timeout_msg self)]).
Proof.
  intros E Hne. apply eqb_neq in Hne.
  unfold Worker.exec, Worker.run, Worker.wait_for_boot,
    bind, try_except, subprocess_run, emit, ret. simpl. rewrite E.
  rewrite Hne. reflexivity.
Qed.

(** A batch of calls that all return runs to its end, one call per
    command, in order, whatever the exit statuses. *)
Lemma for_each_returns (cmds : list (list str)) :
  forall n tr,
    (forall k cmd, nth_error cmds k = Some cmd ->
                   exists r, b (n + k) cmd = Returns r) ->
    for_each cmds (fun cmd => _ <- subprocess_run cmd None ;; ret tt)
      {| bridge := b; ncalls := n; trace := tr |}
    = (inr tt,
       {| bridge := b; ncalls := n + length cmds;
          trace := tr ++ map (fun cmd => SubprocessRun cmd None) cmds |}).
Proof.
  induction cmds as [|cmd cmds IH]; intros n tr H; simpl.
  - unfold ret. now rewrite Nat.add_0_r, app_nil_r.
  - destruct (H 0 cmd eq_refl) as [r Hr]. rewrite Nat.add_0_r in Hr.
    unfold bind at 1. unfold bind at 1. unfold subprocess_run at 1. simpl.
    rewrite Hr. unfold ret at 1.
    rewrite IH.
    + rewrite <- app_assoc. simpl. now rewrite Nat.add_succ_r.
    + intros k c Hk. destruct (H (S k) c Hk) as [r' Hr'].
      exists r'. now rewrite Nat.add_succ_r in Hr'.
Qed.

(** The device is ready and the wake call and every command return: the
    whole pipeline is run. *)
Lemma exec_all_return r0 r1 :
  b 0 (Worker.boot_check self) = Returns r0 ->
  strip (stdout r0) = lit "1" ->
  b 1 (Worker.wake self) = Returns r1 ->
  (forall k cmd, nth_error (Worker.commands self) k = Some cmd ->
                 exists r, b (2 + k) cmd = Returns r) ->
  Worker.exec self b
  = (inr tt,
     [Log (Worker.processing_msg self);
      SubprocessRun (Worker.boot_check self) (Some 120%Z);
      SubprocessRun (Worker.wake self) None]
     ++ map (fun cmd => SubprocessRun cmd None) (Worker.commands self)
     ++ [Log (Worker.done_msg self)]).
Proof.
  intros E0 Hready E1 Hcmds. apply eqb_eq in Hready.
  unfold Worker.exec, Worker.run, Worker.wait_for_boot, Worker.provision.
  unfold bind at 1 2. unfold emit at 1. unfold try_except, bind at 1.
  unfold subprocess_run at 1. cbn [bridge ncalls trace app].
  rewrite E0, Hready. cbn [negb]. unfold ret at 1.
  unfold bind at 1. unfold subprocess_run at 1. cbn [bridge ncalls trace app].
  rewrite E1. unfold bind at 1.
  rewrite (for_each_returns (Worker.commands self) 2) by exact Hcmds.
  unfold emit. cbn [bridge ncalls trace].
  rewrite <- !app_assoc. reflexivity.
Qed.

(** The device is ready and the wake call raises: the exception leaves
    [run]. *)
Lemma exec_wake_raises r0 e :
  b 0 (Worker.boot_check self) = Returns r0 ->
  strip (stdout r0) = lit "1" ->
  b 1 (Worker.wake self) = Raises e ->
  Worker.exec self b
  = (inl e,
     [Log (Worker.processing_msg self);
      SubprocessRun (Worker.boot_check self) (Some 120%Z);
      SubprocessRun (Worker.wake self) None]).
Proof.
  intros E0 Hready E1. apply eqb_eq in Hready.
  unfold Worker.exec, Worker.run, Worker.wait_for_boot, Worker.provision,
    bind, try_except, subprocess_run, emit, ret. simpl.
  rewrite E0, Hready. simpl. rewrite E1. reflexivity.
Qed.

End WorkerRuns.

(** C2: when the boot check answers anything but "1" (after trimming), the
    worker logs the failure line "[!] <serial> boot timeout" and returns;
    the boot check - getprop sys.boot_completed on its own serial - is the
    only command it has invoked: no wake call, no provisioning command. *)
Theorem not_ready_skips_wake_and_commands
  (self : DeviceWorker) (b : Bridge) (r : CompletedProcess) :
  b 0 (Worker.boot_check self) = Returns r ->
  strip (stdout r) <> lit "1" ->
  Worker.exec self b
  = (inr tt,
     [Log (lit "[+] Processing " ++ serial self);
      SubprocessRun
        [adb self; lit "-s"; serial self; lit "shell"; lit "getprop";
         lit "sys.boot_completed"] (Some 120%Z);
      Log (lit "[!] " ++ serial self ++ lit " boot timeout")])
  /\ Worker.invocations (snd (Worker.exec self b))
     = [[adb self; lit "-s"; serial self; lit "shell"; lit "getprop";
         lit "sys.boot_completed"]]
  /\ Worker.logs (snd (Worker.exec self b))
     = [lit "[+] Processing " ++ serial self;
        lit "[!] " ++ serial self ++ lit " boot timeout"]
  /\ ~ In (Worker.wake self) (Worker.invocations (snd (Worker.exec self b)))
  /\ forall cmd,
       In cmd (Worker.commands self) ->
       ~ In cmd (Worker.invocations (snd (Worker.exec self b))).
Proof.
  intros E Hne. rewrite (exec_boot_not_ready self b r E Hne).
  split; [reflexivity|]. split; [reflexivity|]. split; [reflexivity|].
  cbn [snd Worker.invocations]. split.
  - intros [H | []]. apply (f_equal (@length str)) in H. discriminate.
  - intros cmd Hcmd [H | []]. subst cmd.
    destruct Hcmd as [H | [H | []]];
      apply (f_equal (@length str)) in H; discriminate.
Qed.

(** A device on which the boot check answers "0". *)
Lemma not_ready_skips_wake_and_commands_witness :
  Worker.exec Sample.worker Sample.not_booted
  = (inr tt,
     [Log (lit "[+] Processing emulator-5554");
      SubprocessRun
        [lit "adb"; lit "-s"; lit "emulator-5554"; lit "shell";
         lit "getprop"; lit "sys.boot_completed"] (Some 120%Z);
      Log (lit "[!] emulator-5554 boot timeout")]).
Proof.
  apply (not_ready_skips_wake_and_commands Sample.worker Sample.not_booted
           {| stdout := lit "0" ++ [LF]; returncode := 0 |}).
  - reflexivity.
  - vm_compute. discriminate.
Defined.

(** C3: a device that is ready and a wake call that cannot be spawned: the
    [OSError] is not caught anywhere in [run], which ends by raising it,
    after the boot check and the wake call and without a log line for the
    failure. *)
Theorem wake_exception_escapes_run :
  Worker.exec Sample.worker Sample.wake_cannot_spawn
  = (inl Sample.too_many_files,
     [Log (Worker.processing_msg Sample.worker);
      SubprocessRun (Worker.boot_check Sample.worker) (Some 120%Z);
      SubprocessRun (Worker.wake Sample.worker) None]).
Proof. reflexivity. Qed.

(** C6, as the specification words it, fails on a ready device whose first
    provisioning command exits with status 1: both commands are run and the
    success line is emitted, but the only log lines of the run are the
    "Processing" and the "Done" line, so the failure is not logged. *)
Lemma failed_command_is_not_logged :
  Stated.passes_readiness Sample.worker Sample.first_command_fails
  /\ Worker.logs (snd (Worker.exec Sample.worker Sample.first_command_fails))
     = [Worker.processing_msg Sample.worker; Worker.done_msg Sample.worker]
  /\ ~ Stated.batch_best_effort Sample.worker Sample.first_command_fails.
Proof.
  split; [|split].
  - eexists. split; reflexivity.
  - reflexivity.
  - intros (_ & Hlogged & _).
    destruct (Hlogged 0 _ eq_refl eq_refl) as (m & Hin & Hp & Hd).
    change (Worker.logs
              (snd (Worker.exec Sample.worker Sample.first_command_fails)))
      with [Worker.processing_msg Sample.worker;
            Worker.done_msg Sample.worker] in Hin.
    destruct Hin as [<- | [<- | []]]; congruence.
Qed.

(** C6, amended: on a ready device whose wake call and provisioning
    commands all return, with any exit status, every command of the batch is
    run once, in the order of the batch and after the wake call; exit
    statuses are ignored, so nothing is logged for a failed command and the
    batch goes on; the run ends with the one "Done" line. *)
Theorem ready_batch_runs_to_done
  (self : DeviceWorker) (b : Bridge) (r0 r1 : CompletedProcess) :
  b 0 (Worker.boot_check self) = Returns r0 ->
  strip (stdout r0) = lit "1" ->
  b 1 (Worker.wake self) = Returns r1 ->
  (forall k cmd, nth_error (Worker.commands self) k = Some cmd ->
                 exists r, b (2 + k) cmd = Returns r) ->
  Worker.exec self b
  = (inr tt,
     [Log (Worker.processing_msg self);
      SubprocessRun (Worker.boot_check self) (Some 120%Z);
      SubprocessRun (Worker.wake self) None]
     ++ map (fun cmd => SubprocessRun cmd None) (Worker.commands self)
     ++ [Log (Worker.done_msg self)])
  /\ Worker.invocations (snd (Worker.exec self b))
     = Worker.boot_check self :: Worker.wake self :: Worker.commands self
  /\ Worker.logs (snd (Worker.exec self b))
     = [Worker.processing_msg self; Worker.done_msg self]
  /\ last (snd (Worker.exec self b)) (Msleep 0) = Log (Worker.done_msg self).
Proof.
  intros E0 Hready E1 Hcmds.
  rewrite (exec_all_return self b r0 r1 E0 Hready E1 Hcmds).
  repeat split.
Qed.

(** A ready device whose first provisioning command exits with status 1. *)
Lemma ready_batch_runs_to_done_witness :
  Worker.logs (snd (Worker.exec Sample.worker Sample.first_command_fails))
  = [Worker.processing_msg Sample.worker; Worker.done_msg Sample.worker].
Proof.
  apply (ready_batch_runs_to_done Sample.worker Sample.first_command_fails
           {| stdout := lit "1" ++ [LF]; returncode := 0 |}
           {| stdout := []; returncode := 0 |}).
  - reflexivity.
  - reflexivity.
  - reflexivity.
  - intros k cmd Hk.
    destruct k as [|[|k]]; simpl in Hk.
    + eexists; reflexivity.
    + eexists; reflexivity.
    + destruct k; discriminate.
Defined.

Ltac tidy := cbn [bridge ncalls trace app fst snd negb].

(** The [j]-th call of the second run is answered as the [j]-th call of the
    first. *)
Ltac replay H j := tidy; rewrite (H j) by lia; tidy.

(** C9: a worker run a second time, right after its first run and with the
    bridge answering the calls of the second run as it answered those of
    the first, invokes the same commands in the same order, emits the same
    events and ends the same way: [run] reads the fields of the worker and
    never assigns one, so nothing is carried from a run to the next. *)
Theorem rerun_repeats_invocations (self : DeviceWorker) (b : Bridge) :
  let first := Worker.run self {| bridge := b; ncalls := 0; trace := [] |} in
  let n := ncalls (snd first) in
  let second := Worker.run self {| bridge := b; ncalls := n; trace := [] |} in
  (forall j argv, j < n -> b (n + j) argv = b j argv) ->
  Worker.invocations (trace (snd second))
  = Worker.invocations (trace (snd first))
  /\ trace (snd second) = trace (snd first)
  /\ fst second = fst first.
Proof.
  cbv [Worker.run Worker.wait_for_boot Worker.provision bind try_except
       subprocess_run emit ret for_each Worker.commands].
  tidy.
  destruct (b 0 (Worker.boot_check self)) as [e0|r0] eqn:E0; tidy.
  { intros H. replay H 0. rewrite E0. repeat split. }
  destruct (eqb (strip (stdout r0)) (lit "1")) eqn:Hready; tidy.
  2:{ intros H. replay H 0. rewrite E0, Hready. repeat split. }
  destruct (b 1 (Worker.wake self)) as [e1|r1] eqn:E1; tidy.
  { intros H. replay H 0. rewrite E0, Hready. replay H 1. rewrite E1.
    repeat split. }
  match goal with |- context [b 2 ?c] =>
    destruct (b 2 c) as [e2|r2] eqn:E2 end; tidy.
  { intros H. replay H 0. rewrite E0, Hready. replay H 1. rewrite E1.
    replay H 2. rewrite E2. repeat split. }
  match goal with |- context [b 3 ?c] =>
    destruct (b 3 c) as [e3|r3] eqn:E3 end; tidy.
  { intros H. replay H 0. rewrite E0, Hready. replay H 1. rewrite E1.
    replay H 2. rewrite E2. replay H 3. rewrite E3. repeat split. }
  intros H. replay H 0. rewrite E0, Hready. replay H 1. rewrite E1.
  replay H 2. rewrite E2. replay H 3. rewrite E3. repeat split.
Qed.

(** A device that is ready, run twice. *)
Lemma rerun_repeats_invocations_witness :
  Worker.invocations
    (trace (snd (Worker.run Sample.worker
                   {| bridge := Sample.always_ready; ncalls := 4;
                      trace := [] |})))
  = Worker.boot_check Sample.worker :: Worker.wake Sample.worker
    :: Worker.commands Sample.worker.
Proof.
  apply (rerun_repeats_invocations Sample.worker Sample.always_ready).
  intros j argv Hj. reflexivity.
Defined.

(** ** Splitting and trimming *)

Lemma split_nonempty (s : str) (sep : char) : split s sep <> [].
Proof.
  induction s as [|c s IH]; simpl; [discriminate|].
  destruct (c =? sep)%N; [discriminate|].
  destruct (split s sep); [contradiction | discriminate].
Qed.

(** Splitting at an occurrence of the separator. *)
Lemma split_app (p q : str) (sep : char) :
  split (p ++ sep :: q) sep = split p sep ++ split q sep.
Proof.
  induction p as [|c p IH]; simpl.
  - now rewrite N.eqb_refl.
  - destruct (c =? sep)%N; [now rewrite IH|].
    rewrite IH. pose proof (split_nonempty p sep) as Hne.
    destruct (split p sep); [contradiction | reflexivity].
Qed.

Lemma split_no_sep (s : str) (sep : char) :
  ~ In sep s -> split s sep = [s].
Proof.
  induction s as [|c s IH]; simpl; intros Hnot; [reflexivity|].
  destruct (N.eqb_spec c sep) as [->|Hne]; [tauto|].
  rewrite IH by tauto. reflexivity.
Qed.

Lemma join_split (s : str) (sep : char) : join sep (split s sep) = s.
Proof.
  induction s as [|c s IH]; simpl; [reflexivity|].
  pose proof (split_nonempty s sep) as Hne.
  destruct (N.eqb_spec c sep) as [->|Hc].
  - simpl. destruct (split s sep) eqn:E; [contradiction|].
    now rewrite IH.
  - destruct (split s sep) as [|piece pieces] eqn:E; [contradiction|].
    simpl in *. destruct pieces; now rewrite <- IH.
Qed.

Lemma join_snoc (sep : char) (pieces : list str) (piece : str) :
  pieces <> [] ->
  join sep (pieces ++ [piece]) = join sep pieces ++ sep :: piece.
Proof.
  induction pieces as [|p ps IH]; intros Hne; [contradiction|].
  destruct ps as [|p' ps]; [reflexivity|].
  change (p ++ sep :: join sep ((p' :: ps) ++ [piece])
          = (p ++ sep :: join sep (p' :: ps)) ++ sep :: piece).
  rewrite IH by discriminate. now rewrite <- app_assoc.
Qed.

(** [endswith] finds exactly the strings that are some prefix followed by
    the suffix. *)
Lemma endswith_iff (s suffix : str) :
  endswith s suffix = true <-> exists p, s = p ++ suffix.
Proof.
  unfold endswith. rewrite andb_true_iff, Nat.leb_le, eqb_eq. split.
  - intros [_ H]. exists (firstn (length s - length suffix) s).
    pose proof (firstn_skipn (length s - length suffix) s) as Hs.
    rewrite H in Hs. now symmetry.
  - intros [p ->]. rewrite length_app. split; [lia|].
    replace (length p + length suffix - length suffix) with (length p) by lia.
    rewrite skipn_app, Nat.sub_diag, skipn_all. reflexivity.
Qed.

(** The test of line 132 is the test of the status field. *)
Lemma ready_suffix_is_status (row : str) :
  endswith (strip row) Monitor.READY_SUFFIX = Stated.is_ready row.
Proof.
  assert (Hd : ~ In TAB (lit "device")).
  { vm_compute. intuition discriminate. }
  unfold Stated.is_ready, Stated.status_field, Stated.columns.
  destruct (endswith (strip row) Monitor.READY_SUFFIX) eqn:E.
  - apply endswith_iff in E. destruct E as [p Hp]. rewrite Hp.
    unfold Monitor.READY_SUFFIX. rewrite split_app, rev_app_distr.
    rewrite (split_no_sep _ _ Hd). simpl.
    pose proof (split_nonempty p TAB) as Hne.
    destruct (rev (split p TAB)) eqn:Er.
    + apply (f_equal (@rev str)) in Er. rewrite rev_involutive in Er.
      contradiction.
    + reflexivity.
  - destruct (rev (split (strip row) TAB)) as [|status [|col cols]] eqn:Er;
      try reflexivity.
    destruct (eqb status (lit "device")) eqn:Es; [|reflexivity].
    apply eqb_eq in Es. subst status.
    apply (f_equal (@rev str)) in Er. rewrite rev_involutive in Er.
    simpl in Er.
    assert (Hs : strip row
                 = join TAB (rev cols ++ [col]) ++ TAB :: lit "device").
    { rewrite <- (join_split (strip row) TAB), Er.
      apply join_snoc. destruct (rev cols); discriminate. }
    assert (Hend : endswith (strip row) Monitor.READY_SUFFIX = true).
    { apply endswith_iff. eexists. exact Hs. }
    congruence.
Qed.

(** [splitlines] on a first line and what follows its line feed. *)
Lemma splitlines_from_first (first rest : str) :
  forall cur,
    Forall (fun c => islinebreak c = false) first ->
    splitlines_from cur (first ++ LF :: rest)
    = (cur ++ first) :: splitlines rest.
Proof.
  induction first as [|c first IH]; intros cur Hall; simpl.
  - rewrite app_nil_r. destruct rest; reflexivity.
  - inversion Hall as [|? ? Hc Hrest]; subst. rewrite Hc.
    rewrite IH by assumption. now rewrite <- app_assoc.
Qed.

Lemma splitlines_first (first rest : str) :
  Forall (fun c => islinebreak c = false) first ->
  splitlines (first ++ LF :: rest) = first :: splitlines rest.
Proof. intros H. apply (splitlines_from_first first rest [] H). Qed.

(** ** One poll cycle *)

Section PollCycle.

Variable bundled_adb : str.
Variable self : MonitorThread.
Variable polls : Bridge.
Variable n : nat.


(** The loop of lines 131-133 never raises: a row always has a first
    column.  It appends the identifiers of the ready rows, in order. *)
Lemma collect_total (lines : list str) :
  forall devices w,
    Monitor.collect lines devices w
    = (inr (devices
            ++ map Stated.identifier (filter Stated.is_ready lines)), w).
Proof.
  induction lines as [|line lines IH]; intros devices w; simpl.
  - unfold ret. now rewrite app_nil_r.
  - rewrite ready_suffix_is_status.
    destruct (Stated.is_ready line); [|apply IH].
    unfold bind, Monitor.index0. simpl.
    unfold Stated.identifier at 1. unfold Stated.columns.
    pose proof (split_nonempty line TAB) as Hne.
    destruct (split line TAB) as [|col cols]; [contradiction|].
    unfold ret. rewrite IH. simpl. now rewrite <- app_assoc.
Qed.

Lemma for_each_start (devices : list str) :
  forall w,
    for_each devices
      (fun serial => emit (PoolStart (Worker.init bundled_adb serial))) w
    = (inr tt,
       {| bridge := bridge w; ncalls := ncalls w;
          trace := trace w
                   ++ map (fun serial =>
                             PoolStart (Worker.init bundled_adb serial))
                          devices |}).
Proof.
  induction devices as [|d devices IH]; intros w; simpl.
  - unfold ret. rewrite app_nil_r. now destruct w.
  - unfold bind, emit. rewrite IH. simpl. now rewrite <- app_assoc.
Qed.

Lemma cycle_returns r :
  polls n (Monitor.enumerate self) = Returns r ->
  Monitor.cycle bundled_adb self polls n
  = (inr tt, Stated.returned_events bundled_adb self (stdout r)).
Proof.
  intros E. unfold Monitor.cycle, Monitor.poll_cycle, try_except.
  unfold bind at 1. unfold subprocess_run. cbn [bridge ncalls trace app].
  rewrite E.
  unfold bind at 1. rewrite collect_total.
  unfold bind at 1. unfold emit at 1. unfold bind at 1.
  rewrite for_each_start. unfold emit. cbn [bridge ncalls trace app].
  unfold Stated.returned_events, Stated.ready_rows, Stated.rows.
  rewrite length_map, map_map. reflexivity.
Qed.

(** The events of a cycle whose enumeration raises. *)
Lemma cycle_raises e :
  polls n (Monitor.enumerate self) = Raises e ->
  Monitor.cycle bundled_adb self polls n
  = (inr tt, [SubprocessRun (Monitor.enumerate self) None;
              Log (Monitor.poll_error_msg e);
              Msleep Monitor.POLL_ERROR_MS]).
Proof.
  intros E. unfold Monitor.cycle, Monitor.poll_cycle, try_except.
  unfold bind at 1. unfold subprocess_run. cbn [bridge ncalls trace app].
  rewrite E. reflexivity.
Qed.

(** No exception leaves the body of the loop. *)
Lemma cycle_never_raises :
  fst (Monitor.cycle bundled_adb self polls n) = inr tt.
Proof.
  destruct (polls n (Monitor.enumerate self)) as [e|r] eqn:E.
  - now rewrite (cycle_raises e E).
  - now rewrite (cycle_returns r E).
Qed.

End PollCycle.


(** An output that is no table either, with a row cut short, and whose
    device list is not empty. *)
Example malformed_output_with_a_ready_row :
  Stated.is_table Sample.garbage_and_row = false
  /\ snd (Monitor.cycle (lit "adb") Sample.monitor
            (fun _ _ => Sample.ok Sample.garbage_and_row) 0)
     = [SubprocessRun (Monitor.enumerate Sample.monitor) None;
        DeviceCount 1;
        PoolStart (Worker.init (lit "adb") (lit "emulator-5554"));
        Msleep 2000].
Proof. split; reflexivity. Qed.

(** C10: the first line of the enumeration output is dropped before the
    rows are filtered.  An output of at most one line gives a cycle with
    count 0, no worker and no log line or exception; and when the output
    is a first line followed by a line feed and more, the cycle counts and
    submits the ready rows among the lines that follow, whatever the first
    line is - the row of a connected device included. *)
Theorem first_line_is_discarded
  (bundled_adb : str) (self : MonitorThread) (polls : Bridge) (n : nat)
  (r : CompletedProcess) :
  polls n (Monitor.enumerate self) = Returns r ->
  (length (splitlines (stdout r)) <= 1 ->
   Monitor.cycle bundled_adb self polls n
   = (inr tt, [SubprocessRun (Monitor.enumerate self) None;
               DeviceCount 0; Msleep 2000]))
  /\ (forall first rest,
        Forall (fun c => islinebreak c = false) first ->
        stdout r = first ++ LF :: rest ->
        let ready := filter Stated.is_ready (splitlines rest) in
        Monitor.cycle bundled_adb self polls n
        = (inr tt,
           [SubprocessRun (Monitor.enumerate self) None;
            DeviceCount (length ready)]
           ++ map (fun row =>
                     PoolStart
                       (Worker.init bundled_adb (Stated.identifier row)))
                  ready
           ++ [Msleep 2000])).
Proof.
  intros E. rewrite (cycle_returns bundled_adb self polls n r E).
  unfold Stated.returned_events, Stated.ready_rows, Stated.rows. split.
  - intros Hlen.
    destruct (splitlines (stdout r)) as [|l [|l' ls]]; simpl in *;
      try reflexivity; lia.
  - intros first rest Hfirst ->. rewrite (splitlines_first _ _ Hfirst).
    reflexivity.
Qed.

(** The only line of the output is the row of a connected device. *)
Lemma first_line_is_discarded_witness :
  Stated.is_ready Sample.ready_row_first = true
  /\ Monitor.cycle (lit "adb") Sample.monitor
       (fun _ _ => Sample.ok Sample.ready_row_first) 0
     = (inr tt, [SubprocessRun (Monitor.enumerate Sample.monitor) None;
                 DeviceCount 0; Msleep 2000]).
Proof.
  split; [reflexivity|].
  apply (first_line_is_discarded (lit "adb") Sample.monitor
           (fun _ _ => Sample.ok Sample.ready_row_first) 0
           {| stdout := Sample.ready_row_first; returncode := 0 |}).
  - reflexivity.
  - vm_compute. lia.
Defined.

(** ** The worker pool *)

Lemma remove_nth_length {A} (xs : list A) :
  forall i, i < length xs -> S (length (Pool.remove_nth i xs)) = length xs.
Proof.
  induction xs as [|x xs IH]; intros i Hi; simpl in *; [lia|].
  destruct i; simpl; [reflexivity|]. rewrite IH; lia.
Qed.

Lemma configure_within (n : Z) : (1 <= n)%Z -> Pool.within n (Pool.configure n).
Proof. intros Hn. repeat split; simpl; try lia. congruence. Qed.

Lemma start_within (n : Z) (p : QThreadPool) (task : DeviceWorker) :
  Pool.within n p -> Pool.within n (Pool.start p task).
Proof.
  intros (Hmax & Hle & Hq). unfold Pool.start.
  destruct (Z.ltb_spec (Z.of_nat (length (active p))) (maxThreadCount p)).
  - repeat split; simpl; try assumption.
    + rewrite length_app. simpl. lia.
    + intros Hne. specialize (Hq Hne). lia.
  - repeat split; simpl; try assumption. intros _. lia.
Qed.

Lemma task_done_within (n : Z) (p : QThreadPool) (i : nat) :
  Pool.within n p -> Pool.within n (Pool.task_done p i).
Proof.
  intros (Hmax & Hle & Hq). unfold Pool.task_done.
  destruct (Nat.ltb_spec i (length (active p))) as [Hi|Hi];
    [|repeat split; assumption].
  pose proof (remove_nth_length (active p) i Hi) as Hlen.
  destruct (queued p) as [|next rest] eqn:Eq.
  - repeat split; simpl; try assumption; [lia | congruence].
  - assert (Hfull : Z.of_nat (length (active p)) = n) by (apply Hq; congruence).
    repeat split; simpl; try assumption; rewrite length_app; simpl; lia.
Qed.

Lemma clear_within (n : Z) (p : QThreadPool) :
  Pool.within n p -> Pool.within n (Pool.clear p).
Proof.
  intros (Hmax & Hle & Hq). repeat split; simpl; try assumption. congruence.
Qed.

Lemma run_ops_within (n : Z) (ops : list Pool.Op) :
  forall p, Pool.within n p -> Pool.within n (Pool.run_ops ops p).
Proof.
  induction ops as [|op ops IH]; intros p Hp; [exact Hp|].
  apply IH. destruct op; simpl.
  - now apply start_within.
  - now apply task_done_within.
  - now apply clear_within.
Qed.

(** A full pool queues what is submitted to it. *)
Lemma start_full_queues (p : QThreadPool) (task : DeviceWorker) :
  (maxThreadCount p <= Z.of_nat (length (active p)))%Z ->
  Pool.start p task
  = {| maxThreadCount := maxThreadCount p; active := active p;
       queued := queued p ++ [task] |}.
Proof.
  intros Hfull. unfold Pool.start.
  destruct (Z.ltb_spec (Z.of_nat (length (active p))) (maxThreadCount p));
    [lia | reflexivity].
Qed.

(** ** The monitor loop *)

Section Loop.

Variable bundled_adb : str.
Variable polls : Bridge.

Lemma exec_app (s1 s2 : list Monitor.Actor) (c : Monitor.Config) :
  Monitor.exec bundled_adb polls (s1 ++ s2) c
  = Monitor.exec bundled_adb polls s2 (Monitor.exec bundled_adb polls s1 c).
Proof. apply fold_left_app. Qed.

(** The events of a cycle are events of the loop. *)
Lemma cycle_of_loop (self : MonitorThread) (n : nat) :
  forallb Monitor.of_loop (snd (Monitor.cycle bundled_adb self polls n))
  = true.
Proof.
  destruct (polls n (Monitor.enumerate self)) as [e|r] eqn:E.
  - now rewrite (cycle_raises bundled_adb self polls n e E).
  - rewrite (cycle_returns bundled_adb self polls n r E).
    unfold Stated.returned_events. cbn [snd app forallb Monitor.of_loop andb].
    rewrite forallb_app, andb_true_iff. split; [|reflexivity].
    apply forallb_forall. intros ev Hin. apply in_map_iff in Hin.
    destruct Hin as (row & <- & _). reflexivity.
Qed.

Lemma effect_adb (ev : Event) (m : MonitorThread) :
  monitor_adb (Monitor.effect ev m) = monitor_adb m
  /\ max_devices (Monitor.effect ev m) = max_devices m.
Proof. destruct ev; split; reflexivity. Qed.

Lemma effect_of_loop (ev : Event) (m : MonitorThread) :
  Monitor.of_loop ev = true ->
  running (Monitor.effect ev m) = running m.
Proof. destruct ev; simpl; intros H; try reflexivity; discriminate. Qed.

(** Whatever is done to the monitor, its pool stays within its limit. *)
Lemma effect_within (max : Z) (ev : Event) (m : MonitorThread) :
  Pool.within max (threadpool m) ->
  Pool.within max (threadpool (Monitor.effect ev m)).
Proof.
  intros H. destruct ev; simpl; try exact H.
  - now apply start_within.
  - now apply clear_within.
Qed.

Lemma step_within (max : Z) (c : Monitor.Config) (a : Monitor.Actor) :
  Pool.within max (threadpool (Monitor.self c)) ->
  Pool.within max
    (threadpool (Monitor.self (Monitor.step bundled_adb polls c a))).
Proof.
  intros H. destruct a as [| |i]; simpl.
  - unfold Monitor.monitor_step.
    destruct (Monitor.pc c) as [| |[|ev todo] [e|]| |];
      simpl; try exact H; try (now apply effect_within).
    destruct (running (Monitor.self c)); [|exact H].
    destruct (Monitor.cycle bundled_adb (Monitor.self c) polls
                (Monitor.cycles c)) as [[e|u] evs]; exact H.
  - unfold Monitor.stop_step.
    destruct (Monitor.stop_todo c); [exact H|]. now apply effect_within.
  - now apply task_done_within.
Qed.

Lemma exec_within (max : Z) (sched : list Monitor.Actor) :
  forall c,
    Pool.within max (threadpool (Monitor.self c)) ->
    Pool.within max
      (threadpool (Monitor.self (Monitor.exec bundled_adb polls sched c))).
Proof.
  induction sched as [|a sched IH]; intros c H; [exact H|].
  apply IH. now apply step_within.
Qed.

(** While [stop] has not begun, the thread goes on looping. *)
Lemma monitor_step_looping (max : Z) (c : Monitor.Config) :
  Monitor.looping bundled_adb max c ->
  Monitor.looping bundled_adb max (Monitor.monitor_step bundled_adb polls c).
Proof.
  intros (Hadb & Hmax & Hstop & Hpc). unfold Monitor.monitor_step.
  destruct (Monitor.pc c) as [| |[|ev todo] pending| |] eqn:Epc;
    try contradiction.
  - repeat split; assumption.
  - repeat split; simpl; assumption.
  - destruct Hpc as (Hrun & -> & _). rewrite Hrun.
    pose proof (cycle_never_raises bundled_adb (Monitor.self c) polls
                  (Monitor.cycles c)) as Hres.
    pose proof (cycle_of_loop (Monitor.self c) (Monitor.cycles c)) as Hevs.
    destruct (Monitor.cycle bundled_adb (Monitor.self c) polls
                (Monitor.cycles c)) as [[e|u] evs];
      simpl in Hres, Hevs; [discriminate|].
    repeat split; simpl; assumption.
  - destruct Hpc as (Hrun & -> & Hall). simpl in Hall.
    apply andb_true_iff in Hall. destruct Hall as [Hev Hall].
    destruct (effect_adb ev (Monitor.self c)) as [Ha Hm].
    repeat split; simpl; try congruence.
    rewrite effect_of_loop; assumption.
Qed.

Lemma step_looping (max : Z) (c : Monitor.Config) (a : Monitor.Actor) :
  a <> Monitor.Stop ->
  Monitor.looping bundled_adb max c ->
  Monitor.looping bundled_adb max (Monitor.step bundled_adb polls c a).
Proof.
  intros Ha H. destruct a as [| |i]; [|contradiction|].
  - now apply monitor_step_looping.
  - destruct H as (Hadb & Hmax & Hstop & Hpc).
    repeat split; simpl; assumption.
Qed.

Lemma exec_looping (max : Z) (sched : list Monitor.Actor) :
  forall c,
    ~ In Monitor.Stop sched ->
    Monitor.looping bundled_adb max c ->
    Monitor.looping bundled_adb max
      (Monitor.exec bundled_adb polls sched c).
Proof.
  induction sched as [|a sched IH]; intros c Hno H; [exact H|].
  apply IH; [intros Hin; apply Hno; now right|].
  apply step_looping; [|exact H]. intros ->. apply Hno. now left.
Qed.

Lemma initial_looping (max : Z) :
  Monitor.looping bundled_adb max (Monitor.initial bundled_adb max).
Proof. repeat split. Qed.

Lemma looping_alive (max : Z) (c : Monitor.Config) :
  Monitor.looping bundled_adb max c -> Monitor.alive c = true.
Proof.
  intros (_ & _ & _ & Hpc). unfold Monitor.alive.
  destruct (Monitor.pc c); try reflexivity; contradiction.
Qed.

(** A cycle whose enumeration raises: the test, the call, the log line
    and the short sleep, and the thread is at the test again. *)
Lemma failed_cycle (c : Monitor.Config) (e : Exn) :
  Monitor.pc c = Monitor.InLoop [] None ->
  running (Monitor.self c) = true ->
  polls (Monitor.cycles c) (Monitor.enumerate (Monitor.self c)) = Raises e ->
  Monitor.exec bundled_adb polls (repeat Monitor.Mon 4) c
  = {| Monitor.self := Monitor.self c;
       Monitor.pc := Monitor.InLoop [] None;
       Monitor.cycles := S (Monitor.cycles c);
       Monitor.stop_todo := Monitor.stop_todo c;
       Monitor.history :=
         Monitor.history c
         ++ [SubprocessRun (Monitor.enumerate (Monitor.self c)) None;
             Log (Monitor.poll_error_msg e);
             Msleep Monitor.POLL_ERROR_MS] |}.
Proof.
  intros Hpc Hrun E. destruct c as [m p k st h]; simpl in *. subst p.
  unfold Monitor.monitor_step at 4. simpl. rewrite Hrun.
  rewrite (cycle_raises bundled_adb m polls k e E).
  cbv [Monitor.monitor_step Monitor.goto Monitor.perform Monitor.effect
       Monitor.pc Monitor.self Monitor.cycles Monitor.stop_todo
       Monitor.history].
  rewrite <- !app_assoc. reflexivity.
Qed.

End Loop.

(** Failed cycles in a row, from the test of line 122. *)
Lemma failed_cycles
  (bundled_adb : str) (polls : Bridge) (errs : nat -> Exn) (k : nat) :
  forall c,
    Monitor.pc c = Monitor.InLoop [] None ->
    running (Monitor.self c) = true ->
    (forall i, i < k ->
       polls (Monitor.cycles c + i) (Monitor.enumerate (Monitor.self c))
       = Raises (errs i)) ->
    Monitor.exec bundled_adb polls (repeat Monitor.Mon (4 * k)) c
    = {| Monitor.self := Monitor.self c;
         Monitor.pc := Monitor.InLoop [] None;
         Monitor.cycles := Monitor.cycles c + k;
         Monitor.stop_todo := Monitor.stop_todo c;
         Monitor.history :=
           Monitor.history c
           ++ flat_map
                (fun i =>
                   [SubprocessRun (Monitor.enumerate (Monitor.self c)) None;
                    Log (Monitor.poll_error_msg (errs i));
                    Msleep Monitor.POLL_ERROR_MS])
                (seq 0 k) |}.
Proof.
  induction k as [|k IH]; intros c Hpc Hrun Herr.
  - destruct c as [m p n st h]; simpl in *. subst p.
    now rewrite Nat.add_0_r, app_nil_r.
  - replace (4 * S k) with (4 * k + 4) by lia.
    rewrite repeat_app, (exec_app bundled_adb polls).
    rewrite (IH c Hpc Hrun) by (intros i Hi; apply Herr; lia).
    rewrite failed_cycle with (e := errs k);
      [| reflexivity | exact Hrun | apply Herr; lia].
    cbn [Monitor.self Monitor.cycles Monitor.stop_todo Monitor.history].
    rewrite seq_S, flat_map_app, <- !app_assoc. cbn [flat_map app Nat.add].
    now rewrite Nat.add_succ_r.
Qed.

(** C4: at whatever point of a run, after successful polls or failed ones:
    when the thread is at the test of line 122, [stop] not begun, and the
    next [k] enumerations raise, each of them is followed by the log line
    "[!] Poll error: <e>" and a sleep of 1000 ms - half the 2000 ms that
    end a cycle whose enumeration returns - and after these [k] cycles the
    thread is at the test again, the flag still set, ready for the next
    poll.  And whatever the enumerations do, the thread does not leave
    [run], by return or by exception, as long as [stop] has not begun. *)
Theorem poll_errors_are_retried
  (bundled_adb : str) (max : Z) (polls : Bridge)
  (sched : list Monitor.Actor) (errs : nat -> Exn) (k : nat) :
  ~ In Monitor.Stop sched ->
  Monitor.pc (Monitor.exec bundled_adb polls sched
                (Monitor.initial bundled_adb max))
  = Monitor.InLoop [] None ->
  (forall i, i < k ->
     polls (Monitor.cycles
              (Monitor.exec bundled_adb polls sched
                 (Monitor.initial bundled_adb max)) + i)
       [bundled_adb; lit "devices"]
     = Raises (errs i)) ->
  let c := Monitor.exec bundled_adb polls sched
             (Monitor.initial bundled_adb max) in
  Monitor.exec bundled_adb polls (repeat Monitor.Mon (4 * k)) c
  = {| Monitor.self := Monitor.self c;
       Monitor.pc := Monitor.InLoop [] None;
       Monitor.cycles := Monitor.cycles c + k;
       Monitor.stop_todo := Monitor.stop_todo c;
       Monitor.history :=
         Monitor.history c
         ++ flat_map
              (fun i =>
                 [SubprocessRun [bundled_adb; lit "devices"] None;
                  Log (lit "[!] Poll error: " ++ exn_str (errs i));
                  Msleep 1000])
              (seq 0 k) |}
  /\ running (Monitor.self c) = true
  /\ (forall n r,
        polls n [bundled_adb; lit "devices"] = Returns r ->
        last (snd (Monitor.cycle bundled_adb (Monitor.self c) polls n))
          (Msleep 0)
        = Msleep (2 * 1000))
  /\ forall sched',
       ~ In Monitor.Stop sched' ->
       Monitor.alive
         (Monitor.exec bundled_adb polls sched'
            (Monitor.initial bundled_adb max)) = true.
Proof.
  intros Hno Hpc Herr c.
  assert (Hloop : Monitor.looping bundled_adb max c)
    by (apply exec_looping; [exact Hno | apply initial_looping]).
  destruct Hloop as (Hadb & _ & _ & Hat). fold c in Hpc.
  rewrite Hpc in Hat. destruct Hat as (Hrun & _ & _).
  assert (Henum : Monitor.enumerate (Monitor.self c)
                  = [bundled_adb; lit "devices"])
    by (unfold Monitor.enumerate; now rewrite Hadb).
  split; [|split; [exact Hrun | split]].
  - rewrite (failed_cycles bundled_adb polls errs k c Hpc Hrun)
      by (intros i Hi; rewrite Henum; now apply Herr).
    now rewrite Henum.
  - intros n r E. rewrite <- Henum in E.
    rewrite (cycle_returns bundled_adb (Monitor.self c) polls n r E).
    unfold Stated.returned_events. cbn [snd]. rewrite !app_assoc.
    apply last_last.
  - intros sched' Hno'. apply (looping_alive bundled_adb max).
    apply exec_looping; [exact Hno' | apply initial_looping].
Qed.

(** A poll that finds two devices, then two polls that cannot be spawned. *)
Lemma poll_errors_are_retried_witness :
  Monitor.history
    (Monitor.exec (lit "adb") Cycles.fails_after_first
       (repeat Monitor.Mon 8)
       (Monitor.exec (lit "adb") Cycles.fails_after_first
          (repeat Monitor.Mon 8) (Monitor.initial (lit "adb") 2)))
  = [SetRunning true;
     Log (lit "Monitoring started (max 2 devices)");
     SubprocessRun [lit "adb"; lit "devices"] None;
     DeviceCount 2;
     PoolStart {| serial := lit "emulator-5554"; adb := lit "adb" |};
     PoolStart {| serial := lit "emulator-5556"; adb := lit "adb" |};
     Msleep 2000;
     SubprocessRun [lit "adb"; lit "devices"] None;
     Log (lit "[!] Poll error: [Errno 24] Too many open files");
     Msleep 1000;
     SubprocessRun [lit "adb"; lit "devices"] None;
     Log (lit "[!] Poll error: [Errno 24] Too many open files");
     Msleep 1000].
Proof.
  pose proof (poll_errors_are_retried (lit "adb") 2 Cycles.fails_after_first
                (repeat Monitor.Mon 8) (fun _ => Sample.too_many_files) 2)
    as H.
  refine (f_equal Monitor.history (proj1 (H _ eq_refl _))).
  - simpl. intuition discriminate.
  - intros i Hi. destruct i as [|[|i]]; [reflexivity | reflexivity | lia].
Defined.

(** C1: a pool configured with [max_devices] = [max] >= 1 never has more
    than [max] tasks active, whatever is submitted to it, finishes in it or
    is cleared from it; tasks wait only while [max] are active, and a task
    submitted to a full pool is queued, not run.  So it is for the pool of
    the monitor, which is configured with [max_devices] and receives every
    worker through [start], in every interleaving of the loop, of [stop]
    and of the pool threads. *)
Theorem pool_runs_at_most_max_devices (max : Z) :
  (1 <= max)%Z ->
  (forall ops,
     let p := Pool.run_ops ops (Pool.configure max) in
     (Z.of_nat (length (active p)) <= max)%Z
     /\ (queued p <> [] -> Z.of_nat (length (active p)) = max)
     /\ forall task,
          Z.of_nat (length (active p)) = max ->
          Pool.start p task
          = {| maxThreadCount := max; active := active p;
               queued := queued p ++ [task] |})
  /\ (forall bundled_adb polls sched,
        let p := threadpool
                   (Monitor.self
                      (Monitor.exec bundled_adb polls sched
                         (Monitor.initial bundled_adb max))) in
        (Z.of_nat (length (active p)) <= max)%Z).
Proof.
  intros Hmax. split.
  - intros ops p.
    destruct (run_ops_within max ops _ (configure_within max Hmax))
      as (Hm & Hle & Hq).
    fold p in Hm, Hle, Hq. repeat split; try assumption.
    intros task Hfull. rewrite start_full_queues by lia. now rewrite Hm.
  - intros bundled_adb polls sched p.
    destruct (exec_within bundled_adb polls max sched
                (Monitor.initial bundled_adb max)
                (configure_within max Hmax)) as (_ & Hle & _).
    exact Hle.
Qed.

(** Three workers submitted to a pool of two: two run, the third waits. *)
Lemma pool_runs_at_most_max_devices_witness :
  (Z.of_nat
     (length
        (active
           (Pool.run_ops
              [Pool.Submit (Worker.init (lit "adb") (lit "A"));
               Pool.Submit (Worker.init (lit "adb") (lit "B"));
               Pool.Submit (Worker.init (lit "adb") (lit "C"))]
              (Pool.configure 2)))) <= 2)%Z.
Proof.
  apply (pool_runs_at_most_max_devices 2). lia.
Defined.

(** ** Stopping *)

(** C7, as the specification words it, fails when [stop] begins in the
    middle of a cycle: the loop has enumerated two devices and emitted the
    count when [stop] clears the flag and the queue; the loop still submits
    both workers, which the emptied pool starts, and sleeps its 2000 ms
    before it tests the flag and leaves. *)
Lemma stop_mid_cycle_still_submits :
  Monitor.history
    (Monitor.exec (lit "adb") (fun _ _ => Sample.ok Sample.two_of_three)
       Sample.stop_mid_cycle (Monitor.initial (lit "adb") 2))
  = [SetRunning true;
     Log (lit "Monitoring started (max 2 devices)");
     SubprocessRun [lit "adb"; lit "devices"] None;
     DeviceCount 2;
     SetRunning false;
     PoolClear;
     PoolStart (Worker.init (lit "adb") (lit "emulator-5554"));
     PoolStart (Worker.init (lit "adb") (lit "emulator-5556"));
     Msleep 2000;
     PoolWaitForDone 3000;
     ThreadQuit;
     ThreadWait 5000]
  /\ active
       (threadpool
          (Monitor.self
             (Monitor.exec (lit "adb")
                (fun _ _ => Sample.ok Sample.two_of_three)
                Sample.stop_mid_cycle (Monitor.initial (lit "adb") 2))))
     = [Worker.init (lit "adb") (lit "emulator-5554");
        Worker.init (lit "adb") (lit "emulator-5556")]
  /\ ~ Stated.no_submission_after_stop
        (Monitor.history
           (Monitor.exec (lit "adb")
              (fun _ _ => Sample.ok Sample.two_of_three)
              Sample.stop_mid_cycle (Monitor.initial (lit "adb") 2))).
Proof.
  split; [reflexivity | split; [reflexivity|]].
  intros H.
  apply (H [SetRunning true;
            Log (lit "Monitoring started (max 2 devices)");
            SubprocessRun [lit "adb"; lit "devices"] None;
            DeviceCount 2]
           [PoolClear;
            PoolStart (Worker.init (lit "adb") (lit "emulator-5554"));
            PoolStart (Worker.init (lit "adb") (lit "emulator-5556"));
            Msleep 2000; PoolWaitForDone 3000; ThreadQuit; ThreadWait 5000]
           (Worker.init (lit "adb") (lit "emulator-5554"))).
  - reflexivity.
  - right. left. reflexivity.
Qed.

(** Closes the four parts of [winds_down] after one event. *)
Ltac wound :=
  split; [reflexivity|];
  split; [eexists; reflexivity|];
  split; rewrite <- ?app_assoc, ?app_nil_r; reflexivity.

(** The same after a step that does nothing to the outside. *)
Ltac still :=
  split; [reflexivity|];
  split; [exists []; now rewrite app_nil_r|];
  split; reflexivity.

Section Stopping.

Variable bundled_adb : str.
Variable polls : Bridge.

Lemma remaining_eq (c1 c2 : Monitor.Config) :
  Monitor.pc c1 = Monitor.pc c2 ->
  max_devices (Monitor.self c1) = max_devices (Monitor.self c2) ->
  Monitor.remaining c1 = Monitor.remaining c2.
Proof.
  intros Hpc Hmax. unfold Monitor.remaining, Monitor.started_msg.
  now rewrite Hpc, Hmax.
Qed.

Lemma winds_down_refl (c : Monitor.Config) : Monitor.winds_down c c.
Proof. repeat split. exists []. now rewrite app_nil_r. Qed.

Lemma winds_down_trans (c1 c2 c3 : Monitor.Config) :
  Monitor.winds_down c1 c2 -> Monitor.winds_down c2 c3 ->
  Monitor.winds_down c1 c3.
Proof.
  intros (Hc & [e1 He1] & Hl & Hs) (Hc' & [e2 He2] & Hl' & Hs').
  repeat split; try congruence.
  exists (e1 ++ e2). rewrite He2, He1. now rewrite app_assoc.
Qed.

(** What is left of [stop] after its first statement leaves the flag
    alone and is no event of the loop. *)
Lemma rest_of_stop (ev : Event) (m : MonitorThread) :
  In ev (tl Monitor.stop_body) ->
  Monitor.of_loop ev = false
  /\ running (Monitor.effect ev m) = running m.
Proof.
  simpl. intros [<- | [<- | [<- | [<- | []]]]]; split; reflexivity.
Qed.

Lemma loop_events_snoc (h : list Event) (ev : Event) :
  Monitor.loop_events (h ++ [ev])
  = Monitor.loop_events h ++ (if Monitor.of_loop ev then [ev] else []).
Proof. unfold Monitor.loop_events. rewrite filter_app. reflexivity. Qed.

Lemma stop_events_snoc (h : list Event) (ev : Event) :
  Monitor.stop_events (h ++ [ev])
  = Monitor.stop_events h ++ (if Monitor.of_loop ev then [] else [ev]).
Proof.
  unfold Monitor.stop_events. rewrite filter_app. simpl.
  now destruct (Monitor.of_loop ev).
Qed.

(** Once the flag is cleared, a step of the thread goes on with the cycle
    in progress or leaves the loop; it begins no cycle. *)
Lemma monitor_step_stopping (c : Monitor.Config) :
  Monitor.stopping c ->
  Monitor.stopping (Monitor.monitor_step bundled_adb polls c)
  /\ Monitor.winds_down c (Monitor.monitor_step bundled_adb polls c).
Proof.
  intros (Hrun & Hpc & Hstop & Hrem).
  destruct c as [m p k st h]. unfold Monitor.remaining in Hrem.
  simpl in *. unfold Monitor.monitor_step. simpl.
  destruct p as [| |[|ev todo] [e|]| |]; try contradiction.
  - (* line 120 *)
    split; [repeat split; try assumption; discriminate|].
    unfold Monitor.winds_down, Monitor.remaining; simpl.
    rewrite loop_events_snoc, stop_events_snoc. simpl.
    now wound.
  - (* a pending exception *)
    split; [repeat split; try assumption; discriminate|].
    unfold Monitor.winds_down, Monitor.remaining; simpl. now still.
  - (* the test of line 122 *)
    rewrite Hrun.
    split; [repeat split; try assumption; discriminate|].
    unfold Monitor.winds_down, Monitor.remaining; simpl. now still.
  - (* the next event of the cycle, an exception pending *)
    simpl in Hrem. apply andb_true_iff in Hrem. destruct Hrem as [Hev Hall].
    split.
    + repeat split; simpl; try assumption; try discriminate.
      rewrite effect_of_loop; assumption.
    + unfold Monitor.winds_down, Monitor.remaining; simpl.
      rewrite loop_events_snoc, stop_events_snoc, Hev. now wound.
  - (* the next event of the cycle *)
    simpl in Hrem. apply andb_true_iff in Hrem. destruct Hrem as [Hev Hall].
    split.
    + repeat split; simpl; try assumption; try discriminate.
      rewrite effect_of_loop; assumption.
    + unfold Monitor.winds_down, Monitor.remaining; simpl.
      rewrite loop_events_snoc, stop_events_snoc, Hev. now wound.
  - split; [repeat split; assumption | apply winds_down_refl].
  - split; [repeat split; assumption | apply winds_down_refl].
Qed.

Lemma stop_step_stopping (c : Monitor.Config) :
  Monitor.stopping c ->
  Monitor.stopping (Monitor.stop_step c)
  /\ Monitor.winds_down c (Monitor.stop_step c).
Proof.
  intros H. pose proof H as (Hrun & Hpc & Hstop & Hrem).
  unfold Monitor.stop_step.
  destruct (Monitor.stop_todo c) as [|ev rest] eqn:Est.
  { split; [exact H | apply winds_down_refl]. }
  assert (Hev : In ev (tl Monitor.stop_body)) by (apply Hstop; now left).
  destruct (rest_of_stop ev (Monitor.self c) Hev) as [Hnot Hflag].
  assert (Hsame : Monitor.remaining
                    (Monitor.perform ev c (Monitor.pc c) rest)
                  = Monitor.remaining c).
  { apply remaining_eq; [reflexivity|]. simpl. apply effect_adb. }
  split.
  - split; [simpl; congruence|]. split; [exact Hpc|]. split.
    + intros x Hx. apply Hstop. now right.
    + now rewrite Hsame.
  - unfold Monitor.winds_down. rewrite Hsame, Est. simpl.
    rewrite loop_events_snoc, stop_events_snoc, Hnot. now wound.
Qed.

Lemma finish_step_stopping (i : nat) (c : Monitor.Config) :
  Monitor.stopping c ->
  Monitor.stopping (Monitor.finish_step i c)
  /\ Monitor.winds_down c (Monitor.finish_step i c).
Proof.
  intros (Hrun & Hpc & Hstop & Hrem).
  assert (Hsame : Monitor.remaining (Monitor.finish_step i c)
                  = Monitor.remaining c)
    by (apply remaining_eq; reflexivity).
  split.
  - split; [exact Hrun|]. split; [exact Hpc|]. split; [exact Hstop|].
    now rewrite Hsame.
  - unfold Monitor.winds_down. rewrite Hsame. simpl.
    repeat split. exists []. now rewrite app_nil_r.
Qed.

Lemma exec_stopping (sched : list Monitor.Actor) :
  forall c,
    Monitor.stopping c ->
    Monitor.stopping (Monitor.exec bundled_adb polls sched c)
    /\ Monitor.winds_down c (Monitor.exec bundled_adb polls sched c).
Proof.
  induction sched as [|a sched IH]; intros c H.
  { split; [exact H | apply winds_down_refl]. }
  assert (Hstep : Monitor.stopping (Monitor.step bundled_adb polls c a)
                  /\ Monitor.winds_down c
                       (Monitor.step bundled_adb polls c a)).
  { destruct a as [| |i]; simpl.
    - now apply monitor_step_stopping.
    - now apply stop_step_stopping.
    - now apply finish_step_stopping. }
  destruct Hstep as [Hs Hw]. destruct (IH _ Hs) as [Hs' Hw'].
  split; [exact Hs'|]. exact (winds_down_trans _ _ _ Hw Hw').
Qed.

(** The first statement of [stop], on a monitor whose [run] has begun. *)
Lemma stop_begins (max : Z) (c : Monitor.Config) :
  Monitor.looping bundled_adb max c ->
  Monitor.pc c <> Monitor.AtEntry ->
  Monitor.stopping (Monitor.stop_step c)
  /\ Monitor.history (Monitor.stop_step c)
     = Monitor.history c ++ [SetRunning false]
  /\ Monitor.remaining (Monitor.stop_step c) = Monitor.remaining c
  /\ Monitor.cycles (Monitor.stop_step c) = Monitor.cycles c
  /\ Monitor.stop_todo (Monitor.stop_step c) = tl Monitor.stop_body.
Proof.
  intros (Hadb & Hmax & Hstop & Hpc) Hentry.
  unfold Monitor.stop_step. rewrite Hstop. simpl.
  assert (Hrem : forallb Monitor.of_loop (Monitor.remaining c) = true).
  { unfold Monitor.remaining.
    destruct (Monitor.pc c) as [| |todo pending| |];
      try reflexivity; try contradiction.
    now destruct Hpc as (_ & _ & H). }
  repeat split; try assumption. apply incl_refl.
Qed.

End Stopping.

(** C7, amended: once [stop] has cleared the flag, on a monitor whose
    [run] has begun, the flag stays cleared and the loop begins no further
    poll cycle: it leaves at its next test of the flag.  The cycle in
    progress is finished first: what the thread does after the flag is
    cleared is what that cycle had left, workers not yet submitted and the
    whole [msleep] included, and every worker submitted from then on is one
    of that cycle.  [stop] itself goes through [clear], which empties the
    queue of the pool as it is then, and the two waits, of at most 3000 ms
    for the pool and at most 5000 ms for the thread; it submits nothing. *)
Theorem stop_lets_the_cycle_finish
  (bundled_adb : str) (polls : Bridge) (max : Z)
  (sched1 sched2 : list Monitor.Actor) :
  ~ In Monitor.Stop sched1 ->
  Monitor.pc (Monitor.exec bundled_adb polls sched1
                (Monitor.initial bundled_adb max)) <> Monitor.AtEntry ->
  let c := Monitor.exec bundled_adb polls sched1
             (Monitor.initial bundled_adb max) in
  let c' := Monitor.exec bundled_adb polls (Monitor.Stop :: sched2) c in
  running (Monitor.self c') = false
  /\ Monitor.cycles c' = Monitor.cycles c
  /\ (exists new,
        Monitor.history c' = Monitor.history c ++ SetRunning false :: new
        /\ Monitor.loop_events new ++ Monitor.remaining c'
           = Monitor.remaining c
        /\ Monitor.stop_events new ++ Monitor.stop_todo c'
           = tl Monitor.stop_body
        /\ forall w, In (PoolStart w) new ->
                     In (PoolStart w) (Monitor.remaining c))
  /\ (Monitor.pc c' = Monitor.InLoop [] None ->
      Monitor.pc (Monitor.monitor_step bundled_adb polls c') = Monitor.Exited)
  /\ queued (threadpool
               (Monitor.self
                  (Monitor.exec bundled_adb polls
                     [Monitor.Stop; Monitor.Stop] c))) = []
  /\ map Monitor.blocks_at_most Monitor.stop_body
     = [0; 0; 3000; 0; 5000]%Z.
Proof.
  intros Hno Hentry c c'.
  assert (Hloop : Monitor.looping bundled_adb max c)
    by (apply exec_looping; [exact Hno | apply initial_looping]).
  destruct (stop_begins bundled_adb max c Hloop Hentry)
    as (Hs1 & Hh1 & Hr1 & Hc1 & Ht1).
  destruct (exec_stopping bundled_adb polls sched2 _ Hs1) as [Hs Hw].
  change (Monitor.exec bundled_adb polls sched2 (Monitor.stop_step c))
    with c' in Hs, Hw.
  destruct Hs as (Hrun & _ & _ & _).
  destruct Hw as (Hcyc & [new Hnew] & Hl & Hst).
  rewrite Hnew, Hh1 in Hl, Hst. rewrite Hr1 in Hl. rewrite Ht1 in Hst.
  unfold Monitor.loop_events in Hl. unfold Monitor.stop_events in Hst.
  rewrite filter_app, <- app_assoc in Hl, Hst.
  apply app_inv_head in Hl. apply app_inv_head in Hst.
  split; [exact Hrun|]. split; [congruence|]. split; [|split; [|split]].
  - exists new. split; [|split; [exact Hl | split; [exact Hst|]]].
    + rewrite Hnew, Hh1, <- app_assoc. reflexivity.
    + intros w Hin. rewrite <- Hl. apply in_or_app. left.
      apply filter_In. split; [exact Hin | reflexivity].
  - intros Hpc. unfold Monitor.monitor_step. rewrite Hpc, Hrun. reflexivity.
  - destruct Hloop as (_ & _ & Hbody & _).
    unfold Monitor.exec. simpl. unfold Monitor.stop_step at 2.
    rewrite Hbody. reflexivity.
  - reflexivity.
Qed.

(** [stop] begins when two devices have been counted and neither has been
    submitted. *)
Lemma stop_lets_the_cycle_finish_witness :
  Monitor.cycles
    (Monitor.exec (lit "adb") (fun _ _ => Sample.ok Sample.two_of_three)
       (Monitor.Stop :: repeat Monitor.Stop 1 ++ repeat Monitor.Mon 9)
       (Monitor.exec (lit "adb") (fun _ _ => Sample.ok Sample.two_of_three)
          (repeat Monitor.Mon 5) (Monitor.initial (lit "adb") 2)))
  = 1.
Proof.
  apply (stop_lets_the_cycle_finish (lit "adb")
           (fun _ _ => Sample.ok Sample.two_of_three) 2
           (repeat Monitor.Mon 5)
           (repeat Monitor.Stop 1 ++ repeat Monitor.Mon 9)).
  - simpl. intuition discriminate.
  - vm_compute. discriminate.
Defined.

(** * Further properties of the code *)

(** ** The runs of a worker *)

(** Every run has one of the four shapes. *)
Lemma exec_shape (self : DeviceWorker) (b : Bridge) :
  Pipeline.Shape self b (Worker.exec self b).
Proof.
  destruct (b 0 (Worker.boot_check self)) as [e0|r0] eqn:E0.
  { rewrite (exec_boot_raises self b e0 E0). now apply Pipeline.BootRaises. }
  destruct (eqb (strip (stdout r0)) (lit "1")) eqn:Hready.
  2:{ apply eqb_neq in Hready.
      rewrite (exec_boot_not_ready self b r0 E0 Hready).
      now apply Pipeline.NotReady with (r := r0). }
  apply eqb_eq in Hready.
  assert (Hrun : forall k e,
             1 <= k <= 3 ->
             (forall j, 1 <= j < k ->
                        exists r', b j (Pipeline.call self j) = Returns r') ->
             b k (Pipeline.call self k) = Raises e ->
             Worker.exec self b
             = (inl e, [Log (Worker.processing_msg self);
                        SubprocessRun (Pipeline.call self 0) (Some 120%Z)]
                       ++ map Pipeline.run_event
                            (firstn k (tl (Pipeline.calls self))))).
  { intros k e Hk Hbefore Hraise. pose proof Hready as Hr.
    apply eqb_eq in Hr.
    assert (H1 : k = 1 \/ k = 2 \/ k = 3) by lia.
    destruct H1 as [-> | [-> | ->]].
    - cbv [Worker.exec Worker.run Worker.wait_for_boot Worker.provision
           bind try_except subprocess_run emit ret for_each Worker.commands].
      tidy. rewrite E0, Hr. tidy.
      change (Worker.wake self) with (Pipeline.call self 1).
      rewrite Hraise. reflexivity.
    - destruct (Hbefore 1 ltac:(lia)) as [r1 E1].
      cbv [Worker.exec Worker.run Worker.wait_for_boot Worker.provision
           bind try_except subprocess_run emit ret for_each Worker.commands].
      tidy. rewrite E0, Hr. tidy.
      change (Worker.wake self) with (Pipeline.call self 1). rewrite E1. tidy.
      match goal with |- context [b 2 ?c] =>
        change c with (Pipeline.call self 2) end.
      rewrite Hraise. reflexivity.
    - destruct (Hbefore 1 ltac:(lia)) as [r1 E1].
      destruct (Hbefore 2 ltac:(lia)) as [r2 E2].
      cbv [Worker.exec Worker.run Worker.wait_for_boot Worker.provision
           bind try_except subprocess_run emit ret for_each Worker.commands].
      tidy. rewrite E0, Hr. tidy.
      change (Worker.wake self) with (Pipeline.call self 1). rewrite E1. tidy.
      match goal with |- context [b 2 ?c] =>
        change c with (Pipeline.call self 2) end.
      rewrite E2. tidy.
      match goal with |- context [b 3 ?c] =>
        change c with (Pipeline.call self 3) end.
      rewrite Hraise. reflexivity. }
  destruct (b 1 (Pipeline.call self 1)) as [e1|r1] eqn:E1.
  { rewrite (Hrun 1 e1) by (try lia; try assumption; intros; lia).
    apply Pipeline.CallRaises with (r := r0); try assumption; lia. }
  destruct (b 2 (Pipeline.call self 2)) as [e2|r2] eqn:E2.
  { assert (Hb : forall j, 1 <= j < 2 ->
                   exists r', b j (Pipeline.call self j) = Returns r').
    { intros j Hj. assert (j = 1) as -> by lia. now exists r1. }
    rewrite (Hrun 2 e2) by (try lia; assumption).
    apply Pipeline.CallRaises with (r := r0); try assumption; lia. }
  destruct (b 3 (Pipeline.call self 3)) as [e3|r3] eqn:E3.
  { assert (Hb : forall j, 1 <= j < 3 ->
                   exists r', b j (Pipeline.call self j) = Returns r').
    { intros j Hj. assert (j = 1 \/ j = 2) as [-> | ->] by lia;
        eexists; eassumption. }
    rewrite (Hrun 3 e3) by (try lia; assumption).
    apply Pipeline.CallRaises with (r := r0); try assumption; lia. }
  assert (Hall : forall j, 1 <= j <= 3 ->
                   exists r', b j (Pipeline.call self j) = Returns r').
  { intros j Hj. assert (j = 1 \/ j = 2 \/ j = 3) as [-> | [-> | ->]] by lia;
      eexists; eassumption. }
  rewrite (exec_all_return self b r0 r1 E0 Hready E1).
  - now apply Pipeline.Completes with (r := r0).
  - intros k cmd Hk. destruct k as [|[|k]]; simpl in Hk.
    + injection Hk as <-. now exists r2.
    + injection Hk as <-. now exists r3.
    + destruct k; discriminate.
Qed.

Lemma invocations_app (t1 t2 : list Event) :
  Worker.invocations (t1 ++ t2)
  = Worker.invocations t1 ++ Worker.invocations t2.
Proof.
  induction t1 as [|ev t1 IH]; [reflexivity|].
  destruct ev; simpl; rewrite IH; reflexivity.
Qed.

Lemma invocations_run_events (cmds : list (list str)) :
  Worker.invocations (map Pipeline.run_event cmds) = cmds.
Proof. induction cmds as [|c cmds IH]; simpl; [|rewrite IH]; reflexivity. Qed.

Lemma logs_app (t1 t2 : list Event) :
  Worker.logs (t1 ++ t2) = Worker.logs t1 ++ Worker.logs t2.
Proof.
  induction t1 as [|ev t1 IH]; [reflexivity|].
  destruct ev; simpl; rewrite IH; reflexivity.
Qed.

Lemma logs_run_events (cmds : list (list str)) :
  Worker.logs (map Pipeline.run_event cmds) = [].
Proof. induction cmds as [|c cmds IH]; simpl; [|rewrite IH]; reflexivity. Qed.

(** The calls of a run are the first calls of the pipeline. *)
Lemma invocations_prefix (self : DeviceWorker) (b : Bridge) :
  exists k,
    1 <= k <= 4
    /\ Worker.invocations (snd (Worker.exec self b))
       = firstn k (Pipeline.calls self).
Proof.
  destruct (exec_shape self b) as [e H0|r H0 Hn|r k e H0 Hr Hk Hb He|r H0 Hr Ha];
    cbn [snd].
  - exists 1. split; [lia | reflexivity].
  - exists 1. split; [lia | reflexivity].
  - exists (S k). split; [lia|].
    rewrite invocations_app, invocations_run_events. reflexivity.
  - exists 4. split; [lia|].
    rewrite !invocations_app, invocations_run_events. reflexivity.
Qed.

(** X1: whatever the bridge answers, a run begins with the "Processing"
    line and the boot check under its timeout of 120 seconds, and the
    commands it invokes are the first [k] calls of the fixed pipeline, for
    some [k] from 1 to 4: boot check, wake, the two provisioning commands,
    never out of order, never one skipped or repeated. *)
Theorem run_follows_the_pipeline (self : DeviceWorker) (b : Bridge) :
  (exists rest,
     snd (Worker.exec self b)
     = Log (Worker.processing_msg self)
       :: SubprocessRun (Worker.boot_check self) (Some 120%Z) :: rest)
  /\ exists k,
       1 <= k <= 4
       /\ Worker.invocations (snd (Worker.exec self b))
          = firstn k (Pipeline.calls self).
Proof.
  split; [|apply invocations_prefix].
  destruct (exec_shape self b); cbn [snd app]; eexists; reflexivity.
Qed.

(** X2: every command a worker invokes goes through its own [adb] and is
    addressed to its own serial: its argument vector begins with
    adb, "-s", the serial and "shell". *)
Theorem run_targets_own_device
  (self : DeviceWorker) (b : Bridge) (argv : list str) :
  In argv (Worker.invocations (snd (Worker.exec self b))) ->
  firstn 4 argv = [adb self; lit "-s"; serial self; lit "shell"].
Proof.
  destruct (invocations_prefix self b) as (k & _ & ->). intros Hin.
  assert (Hall : In argv (Pipeline.calls self)).
  { rewrite <- (firstn_skipn k (Pipeline.calls self)).
    apply in_or_app. now left. }
  simpl in Hall. destruct Hall as [<- | [<- | [<- | [<- | []]]]]; reflexivity.
Qed.

(** The boot check of a device that is not ready. *)
Lemma run_targets_own_device_witness :
  firstn 4 (Worker.boot_check Sample.worker)
  = [lit "adb"; lit "-s"; lit "emulator-5554"; lit "shell"].
Proof.
  apply (run_targets_own_device Sample.worker Sample.not_booted).
  left. reflexivity.
Defined.

(** X3: a run ends by raising [e] exactly when the device passed the
    readiness test and one of the three later calls - the wake call or a
    provisioning command - raised [e], the calls before it having
    returned.  Such a run logs nothing but its "Processing" line: neither
    the failure nor "Done". *)
Theorem run_raises_exactly_after_readiness
  (self : DeviceWorker) (b : Bridge) (e : Exn) :
  (fst (Worker.exec self b) = inl e
   <-> Stated.passes_readiness self b
       /\ exists k,
            1 <= k <= 3
            /\ (forall j, 1 <= j < k ->
                          exists r, b j (Pipeline.call self j) = Returns r)
            /\ b k (Pipeline.call self k) = Raises e)
  /\ (fst (Worker.exec self b) = inl e ->
      Worker.logs (snd (Worker.exec self b)) = [Worker.processing_msg self]).
Proof.
  split; [split|].
  - intros Hraise.
    destruct (exec_shape self b) as [e' H0|r H0 Hn|r k e' H0 Hr Hk Hb He|r H0 Hr Ha];
      cbn [fst] in Hraise; try discriminate.
    injection Hraise as ->. split; [now exists r|]. now exists k.
  - intros [(r & H0 & Hr) (k & Hk & Hb & He)].
    destruct (exec_shape self b)
      as [e' H0'|r' H0' Hn|r' k' e' H0' Hr' Hk' Hb' He'|r' H0' Hr' Ha];
      cbn [fst].
    + change (Pipeline.call self 0) with (Worker.boot_check self) in H0'.
      congruence.
    + change (Pipeline.call self 0) with (Worker.boot_check self) in H0'.
      rewrite H0 in H0'. injection H0' as <-. contradiction.
    + destruct (Nat.lt_trichotomy k k') as [Hlt | [<- | Hgt]].
      * destruct (Hb' k ltac:(lia)) as [r'' Hret]. congruence.
      * congruence.
      * destruct (Hb k' ltac:(lia)) as [r'' Hret]. congruence.
    + destruct (Ha k ltac:(lia)) as [r'' Hret]. congruence.
  - intros Hraise.
    destruct (exec_shape self b) as [e' H0|r H0 Hn|r k e' H0 Hr Hk Hb He|r H0 Hr Ha];
      cbn [fst] in Hraise; try discriminate.
    cbn [snd]. rewrite logs_app, logs_run_events. reflexivity.
Qed.

(** X4: an exception raised by the boot check - the timeout of 120 seconds,
    an executable that cannot be spawned - does not leave [run]: it is
    logged as "[!] Boot check failed: ..." and the run returns, having
    invoked nothing but the boot check. *)
Theorem boot_check_exception_is_contained
  (self : DeviceWorker) (b : Bridge) (e : Exn) :
  b 0 (Worker.boot_check self) = Raises e ->
  Worker.exec self b
  = (inr tt, [Log (Worker.processing_msg self);
              SubprocessRun (Worker.boot_check self) (Some 120%Z);
              Log (lit "[!] Boot check failed: " ++ exn_str e)]).
Proof. intros E. exact (exec_boot_raises self b e E). Qed.

(** The boot check runs into its timeout. *)
Lemma boot_check_exception_is_contained_witness :
  Worker.exec Sample.worker Pipeline.boot_times_out
  = (inr tt,
     [Log (lit "[+] Processing emulator-5554");
      SubprocessRun (Worker.boot_check Sample.worker) (Some 120%Z);
      Log (lit "[!] Boot check failed: Command timed out after 120 seconds")]).
Proof.
  apply (boot_check_exception_is_contained Sample.worker
           Pipeline.boot_times_out Pipeline.timed_out).
  reflexivity.
Defined.

(** ** The readiness test *)

Lemma dropwhile_blank (p : char -> bool) (ws s : str) :
  Forall (fun c => p c = true) ws ->
  dropwhile p (ws ++ s) = dropwhile p s.
Proof.
  induction 1 as [|c ws Hc Hws IH]; [reflexivity|]. simpl. now rewrite Hc.
Qed.

Lemma dropwhile_split (p : char -> bool) (s : str) :
  exists ws, Forall (fun c => p c = true) ws /\ s = ws ++ dropwhile p s.
Proof.
  induction s as [|c s (ws & Hws & Hs)]; [now exists []|]. simpl.
  destruct (p c) eqn:Hc.
  - exists (c :: ws). split; [now constructor | simpl; now f_equal].
  - now exists [].
Qed.

(** What [strip] maps to "1": a "1" between two runs of white space. *)
Lemma strip_one_iff (s : str) :
  strip s = lit "1"
  <-> exists ws1 ws2,
        Pipeline.blank ws1 /\ Pipeline.blank ws2
        /\ s = ws1 ++ lit "1" ++ ws2.
Proof.
  unfold strip, lstrip, rstrip, Pipeline.blank. split.
  - intros H.
    destruct (dropwhile_split isspace (rev s)) as (ws2 & Hws2 & Hs2).
    destruct (dropwhile_split isspace (rev (dropwhile isspace (rev s))))
      as (ws1 & Hws1 & Hs1).
    rewrite H in Hs1.
    exists ws1, (rev ws2). split; [exact Hws1|]. split.
    + now apply Forall_rev.
    + rewrite app_assoc, <- Hs1. rewrite <- (rev_involutive s) at 1.
      rewrite Hs2 at 1. now rewrite rev_app_distr.
  - intros (ws1 & ws2 & H1 & H2 & ->).
    rewrite !rev_app_distr, <- app_assoc.
    rewrite dropwhile_blank by now apply Forall_rev.
    change (rev (lit "1")) with [49%N]. cbn [app dropwhile].
    change (isspace 49%N) with false. cbn iota.
    change (rev (49%N :: rev ws1)) with (rev (rev ws1) ++ [49%N]).
    rewrite rev_involutive. now rewrite dropwhile_blank.
Qed.

(** X5: the wake call, and with it the provisioning, is reached exactly
    when the boot check returns an output that is the character "1" with
    nothing but white space before and after it; "1" followed by a line
    end passes, "0", "10" or an empty output do not. *)
Theorem wake_follows_exactly_a_padded_one (self : DeviceWorker) (b : Bridge) :
  In (Worker.wake self) (Worker.invocations (snd (Worker.exec self b)))
  <-> exists r ws1 ws2,
        b 0 (Worker.boot_check self) = Returns r
        /\ Pipeline.blank ws1 /\ Pipeline.blank ws2
        /\ stdout r = ws1 ++ lit "1" ++ ws2.
Proof.
  assert (Hdiff : Worker.wake self <> Worker.boot_check self).
  { intros H. apply (f_equal (@length str)) in H. discriminate. }
  split.
  - intros Hin.
    destruct (exec_shape self b) as [e H0|r H0 Hn|r k e H0 Hr Hk Hb He|r H0 Hr Ha];
      cbn [snd Worker.invocations app] in Hin.
    + destruct Hin as [Heq | []]. now symmetry in Heq.
    + destruct Hin as [Heq | []]. now symmetry in Heq.
    + apply strip_one_iff in Hr. destruct Hr as (ws1 & ws2 & H1 & H2 & Hs).
      now exists r, ws1, ws2.
    + apply strip_one_iff in Hr. destruct Hr as (ws1 & ws2 & H1 & H2 & Hs).
      now exists r, ws1, ws2.
  - intros (r & ws1 & ws2 & H0 & H1 & H2 & Hs).
    assert (Hr : strip (stdout r) = lit "1").
    { apply strip_one_iff. now exists ws1, ws2. }
    destruct (exec_shape self b)
      as [e H0'|r' H0' Hn|r' k e H0' Hr' Hk Hb He|r' H0' Hr' Ha];
      change (Pipeline.call self 0) with (Worker.boot_check self) in H0';
      cbn [snd].
    + congruence.
    + rewrite H0 in H0'. injection H0' as <-. contradiction.
    + rewrite invocations_app, invocations_run_events. apply in_or_app. right.
      destruct k as [|k]; [lia|]. left. reflexivity.
    + rewrite !invocations_app, invocations_run_events.
      apply in_or_app. right. apply in_or_app. left. left. reflexivity.
Qed.

(** ** The serials taken from the enumeration output *)

Lemma split_hd_no_sep (s : str) (sep : char) :
  ~ In sep (hd [] (split s sep)).
Proof.
  induction s as [|c s IH]; simpl; [tauto|].
  destruct (N.eqb_spec c sep) as [->|Hne]; simpl; [tauto|].
  pose proof (split_nonempty s sep) as Hs.
  destruct (split s sep) as [|piece pieces]; [contradiction|].
  simpl in *. intros [Heq | Hin]; [congruence | tauto].
Qed.

(** The first piece ends at the first separator. *)
Lemma split_hd_before_sep (s : str) (sep : char) :
  In sep s -> exists rest, s = hd [] (split s sep) ++ sep :: rest.
Proof.
  induction s as [|c s IH]; simpl; [tauto|]. intros Hin.
  destruct (N.eqb_spec c sep) as [->|Hne]; simpl; [now exists s|].
  destruct Hin as [Heq | Hin]; [congruence|].
  destruct (IH Hin) as [rest Hrest].
  pose proof (split_nonempty s sep) as Hs.
  destruct (split s sep) as [|piece pieces]; [contradiction|].
  simpl in *. exists rest. now rewrite <- Hrest.
Qed.

Lemma in_dropwhile (p : char -> bool) (x : char) (s : str) :
  In x (dropwhile p s) -> In x s.
Proof.
  induction s as [|c s IH]; simpl; [tauto|].
  destruct (p c); [intros H; right; now apply IH | tauto].
Qed.

Lemma in_strip (x : char) (s : str) : In x (strip s) -> In x s.
Proof.
  unfold strip, lstrip, rstrip. intros H.
  apply in_dropwhile, in_rev, in_dropwhile in H. now apply in_rev.
Qed.

(** A row that passes the test of line 132 has a tab. *)
Lemma ready_row_has_tab (row : str) :
  Stated.is_ready row = true -> In TAB row.
Proof.
  rewrite <- ready_suffix_is_status. intros H.
  apply endswith_iff in H. destruct H as [p Hp].
  apply in_strip. rewrite Hp. apply in_or_app. right. now left.
Qed.

(** No line of [splitlines] holds a line boundary. *)
Lemma splitlines_from_clean (n : nat) :
  forall s cur,
    length s <= n ->
    Forall (fun c => islinebreak c = false) cur ->
    Forall (Forall (fun c => islinebreak c = false)) (splitlines_from cur s).
Proof.
  induction n as [|n IH]; intros s cur Hlen Hcur.
  - destruct s; [|simpl in Hlen; lia]. simpl.
    destruct cur; repeat constructor; inversion Hcur; assumption.
  - destruct s as [|c s]; simpl.
    + destruct cur; repeat constructor; inversion Hcur; assumption.
    + simpl in Hlen. destruct (islinebreak c) eqn:Hc.
      * destruct s as [|c' s]; [now repeat constructor|].
        simpl in Hlen.
        destruct ((c =? CR)%N && (c' =? LF)%N);
          (constructor; [exact Hcur | apply IH; [simpl; lia | constructor]]).
      * apply IH; [lia|]. apply Forall_app. split; [exact Hcur|].
        now repeat constructor.
Qed.

Lemma splitlines_clean (s line : str) :
  In line (splitlines s) -> Forall (fun c => islinebreak c = false) line.
Proof.
  intros Hin.
  pose proof (splitlines_from_clean (length s) s [] (le_n _) (Forall_nil _))
    as H.
  rewrite Forall_forall in H. now apply H.
Qed.

(** X6: every worker that a poll cycle submits uses the resolved [adb] and
    has as serial what stands before the first tab of one of the lines
    after the first, untrimmed; so the serial holds no tab and no line
    boundary (it may hold other white space, and it may be empty). *)
Theorem submitted_serial_is_a_first_column
  (bundled_adb : str) (self : MonitorThread) (polls : Bridge) (n : nat)
  (w : DeviceWorker) :
  In (PoolStart w) (snd (Monitor.cycle bundled_adb self polls n)) ->
  adb w = bundled_adb
  /\ ~ In TAB (serial w)
  /\ Forall (fun c => islinebreak c = false) (serial w)
  /\ exists r row rest,
       polls n (Monitor.enumerate self) = Returns r
       /\ In row (tl (splitlines (stdout r)))
       /\ row = serial w ++ TAB :: rest.
Proof.
  intros Hin.
  destruct (polls n (Monitor.enumerate self)) as [e|r] eqn:E.
  { rewrite (cycle_raises bundled_adb self polls n e E) in Hin.
    simpl in Hin. intuition discriminate. }
  rewrite (cycle_returns bundled_adb self polls n r E) in Hin.
  unfold Stated.returned_events in Hin. cbn [snd app] in Hin.
  destruct Hin as [Hin | [Hin | Hin]]; try discriminate.
  apply in_app_or in Hin. destruct Hin as [Hin | [Hin | []]];
    [|discriminate].
  apply in_map_iff in Hin. destruct Hin as (row & Hw & Hrow).
  injection Hw as <-. unfold Stated.ready_rows in Hrow.
  apply filter_In in Hrow. destruct Hrow as [Hrow Hready].
  destruct (split_hd_before_sep row TAB (ready_row_has_tab row Hready))
    as [rest Hrest].
  cbn [adb serial Worker.init].
  split; [reflexivity|]. split; [apply split_hd_no_sep|]. split.
  - assert (Hclean : Forall (fun c => islinebreak c = false) row).
    { apply (splitlines_clean (stdout r)).
      unfold Stated.rows in Hrow.
      destruct (splitlines (stdout r)); [contradiction | now right]. }
    unfold Stated.identifier, Stated.columns. rewrite Hrest in Hclean.
    apply Forall_app in Hclean. exact (proj1 Hclean).
  - exists r, row, rest. repeat split; assumption.
Qed.

(** The first of two connected devices. *)
Lemma submitted_serial_is_a_first_column_witness :
  ~ In TAB (lit "emulator-5554").
Proof.
  apply (submitted_serial_is_a_first_column (lit "adb") Sample.monitor
           (fun _ _ => Sample.ok Sample.two_of_three) 0
           (Worker.init (lit "adb") (lit "emulator-5554"))).
  right. right. left. reflexivity.
Defined.

Lemma dropwhile_head (p : char -> bool) (s t : str) (c : char) :
  dropwhile p s = c :: t -> p c = false.
Proof.
  induction s as [|x s IH]; simpl; [discriminate|].
  destruct (p x) eqn:Hx; [exact IH|]. intros H. injection H as <- _.
  exact Hx.
Qed.

Lemma dropwhile_nil_blank (s : str) :
  dropwhile isspace s = [] <-> Pipeline.blank s.
Proof.
  unfold Pipeline.blank. split.
  - intros H. destruct (dropwhile_split isspace s) as (ws & Hws & Hs).
    rewrite H, app_nil_r in Hs. now subst.
  - intros H. rewrite <- (app_nil_r s). now rewrite dropwhile_blank.
Qed.

(** Trimming a row that ends with the suffix and white space. *)
Lemma strip_ready_row (pre ws : str) :
  Pipeline.blank ws ->
  strip (pre ++ Monitor.READY_SUFFIX ++ ws)
  = dropwhile isspace (pre ++ Monitor.READY_SUFFIX).
Proof.
  intros Hws. unfold strip, lstrip, rstrip. f_equal.
  rewrite app_assoc, rev_app_distr.
  rewrite dropwhile_blank by now apply Forall_rev.
  unfold Monitor.READY_SUFFIX.
  replace (pre ++ TAB :: lit "device")
    with ((pre ++ TAB :: lit "devic") ++ [101%N])
    by (rewrite <- app_assoc; reflexivity).
  rewrite rev_app_distr. cbn [rev app dropwhile].
  change (isspace 101%N) with false. cbn iota.
  change (101%N :: rev (pre ++ TAB :: lit "devic"))
    with (rev [101%N] ++ rev (pre ++ TAB :: lit "devic")).
  rewrite <- rev_app_distr. apply rev_involutive.
Qed.

(** X7: a line made of some text, a tab, "device" and trailing white space
    is taken as a connected device exactly when the text before the tab is
    not blank.  A row whose identifier column is empty or white space - the
    row of a device that reports no serial - is skipped without a word,
    because trimming the line removes the tab with it. *)
Theorem blank_identifier_is_skipped (pre ws : str) (w : World) :
  Pipeline.blank ws ->
  (Pipeline.blank pre ->
   Monitor.collect [pre ++ Monitor.READY_SUFFIX ++ ws] [] w = (inr [], w))
  /\ (~ Pipeline.blank pre ->
      Monitor.collect [pre ++ Monitor.READY_SUFFIX ++ ws] [] w
      = (inr [hd [] (split pre TAB)], w)).
Proof.
  intros Hws. rewrite collect_total. cbn [filter map app].
  rewrite <- ready_suffix_is_status, (strip_ready_row pre ws Hws). split.
  - intros Hpre. rewrite dropwhile_blank by exact Hpre.
    change (dropwhile isspace Monitor.READY_SUFFIX) with (lit "device").
    reflexivity.
  - intros Hpre.
    destruct (dropwhile_split isspace pre) as (lead & Hlead & Hsplit).
    destruct (dropwhile isspace pre) as [|c rest] eqn:Hdrop.
    { exfalso. apply Hpre. now apply dropwhile_nil_blank. }
    apply dropwhile_head in Hdrop.
    assert (Hstrip : dropwhile isspace (pre ++ Monitor.READY_SUFFIX)
                     = (c :: rest) ++ Monitor.READY_SUFFIX).
    { rewrite Hsplit at 1. rewrite <- app_assoc.
      rewrite dropwhile_blank by exact Hlead. simpl. now rewrite Hdrop. }
    assert (Hend : endswith (dropwhile isspace (pre ++ Monitor.READY_SUFFIX))
                     Monitor.READY_SUFFIX = true).
    { apply endswith_iff. eexists. exact Hstrip. }
    rewrite Hend. cbn [map]. unfold Stated.identifier, Stated.columns.
    change (pre ++ Monitor.READY_SUFFIX ++ ws)
      with (pre ++ TAB :: (lit "device" ++ ws)).
    rewrite split_app.
    pose proof (split_nonempty pre TAB) as Hne.
    destruct (split pre TAB); [contradiction | reflexivity].
Qed.

(** The row of a device without a serial, and the row of a device with
    one. *)
Lemma blank_identifier_is_skipped_witness :
  Monitor.collect [[] ++ Monitor.READY_SUFFIX ++ [CR]] []
    {| bridge := Sample.not_booted; ncalls := 0; trace := [] |}
  = (inr [], {| bridge := Sample.not_booted; ncalls := 0; trace := [] |}).
Proof.
  apply (blank_identifier_is_skipped [] [CR]
           {| bridge := Sample.not_booted; ncalls := 0; trace := [] |}).
  - repeat constructor.
  - constructor.
Defined.

(** ** The loop over several cycles *)

Section Cycling.

Variable bundled_adb : str.
Variable polls : Bridge.

(** The thread performs what is left of its cycle, one event a step. *)
Lemma run_todo (evs : list Event) :
  forall c pending,
    Monitor.pc c = Monitor.InLoop evs pending ->
    Monitor.exec bundled_adb polls (repeat Monitor.Mon (length evs)) c
    = {| Monitor.self := Cycles.after_events evs (Monitor.self c);
         Monitor.pc := Monitor.InLoop [] pending;
         Monitor.cycles := Monitor.cycles c;
         Monitor.stop_todo := Monitor.stop_todo c;
         Monitor.history := Monitor.history c ++ evs |}.
Proof.
  induction evs as [|ev evs IH]; intros c pending Hpc.
  - destruct c as [m p k st h]; simpl in *. subst p.
    now rewrite app_nil_r.
  - change (Monitor.exec bundled_adb polls
              (repeat Monitor.Mon (length (ev :: evs))) c)
      with (Monitor.exec bundled_adb polls (repeat Monitor.Mon (length evs))
              (Monitor.monitor_step bundled_adb polls c)).
    assert (Hstep : Monitor.monitor_step bundled_adb polls c
                    = Monitor.perform ev c (Monitor.InLoop evs pending)
                        (Monitor.stop_todo c)).
    { unfold Monitor.monitor_step. now rewrite Hpc. }
    rewrite Hstep.
    rewrite (IH (Monitor.perform ev c (Monitor.InLoop evs pending)
                   (Monitor.stop_todo c)) pending eq_refl). cbn [Monitor.perform Monitor.self
      Monitor.cycles Monitor.stop_todo Monitor.history].
    rewrite <- app_assoc. reflexivity.
Qed.

Lemma after_events_adb (evs : list Event) :
  forall m, monitor_adb (Cycles.after_events evs m) = monitor_adb m.
Proof.
  induction evs as [|ev evs IH]; intros m; [reflexivity|].
  unfold Cycles.after_events in *. cbn [fold_left]. rewrite IH.
  apply effect_adb.
Qed.

Lemma after_events_running (evs : list Event) :
  forall m,
    forallb Monitor.of_loop evs = true ->
    running (Cycles.after_events evs m) = running m.
Proof.
  induction evs as [|ev evs IH]; intros m Hall; [reflexivity|].
  simpl in Hall. apply andb_true_iff in Hall. destruct Hall as [Hev Hall].
  unfold Cycles.after_events in *. cbn [fold_left]. rewrite IH by exact Hall.
  now apply effect_of_loop.
Qed.

(** A cycle whose enumeration returns: the test, then its events. *)
Lemma returned_cycle (c : Monitor.Config) (r : CompletedProcess) :
  Monitor.pc c = Monitor.InLoop [] None ->
  running (Monitor.self c) = true ->
  polls (Monitor.cycles c) (Monitor.enumerate (Monitor.self c)) = Returns r ->
  let evs := Stated.returned_events bundled_adb (Monitor.self c) (stdout r) in
  Monitor.exec bundled_adb polls (repeat Monitor.Mon (S (length evs))) c
  = {| Monitor.self := Cycles.after_events evs (Monitor.self c);
       Monitor.pc := Monitor.InLoop [] None;
       Monitor.cycles := S (Monitor.cycles c);
       Monitor.stop_todo := Monitor.stop_todo c;
       Monitor.history := Monitor.history c ++ evs |}.
Proof.
  intros Hpc Hrun E evs.
  change (Monitor.exec bundled_adb polls
            (repeat Monitor.Mon (S (length evs))) c)
    with (Monitor.exec bundled_adb polls (repeat Monitor.Mon (length evs))
            (Monitor.monitor_step bundled_adb polls c)).
  assert (Hstep : Monitor.monitor_step bundled_adb polls c
                  = Monitor.goto c (Monitor.InLoop evs None)
                      (S (Monitor.cycles c))).
  { unfold Monitor.monitor_step. rewrite Hpc, Hrun.
    now rewrite (cycle_returns bundled_adb (Monitor.self c) polls _ r E). }
  rewrite Hstep.
  now rewrite (run_todo evs
                 (Monitor.goto c (Monitor.InLoop evs None)
                    (S (Monitor.cycles c))) None eq_refl).
Qed.

Lemma submissions_app (t1 t2 : list Event) :
  Cycles.submissions (t1 ++ t2)
  = Cycles.submissions t1 ++ Cycles.submissions t2.
Proof.
  induction t1 as [|ev t1 IH]; [reflexivity|].
  destruct ev; simpl; rewrite IH; reflexivity.
Qed.

Lemma submissions_returned (self : MonitorThread) (out : str) :
  Cycles.submissions (Stated.returned_events bundled_adb self out)
  = map (fun row => Worker.init bundled_adb (Stated.identifier row))
        (Stated.ready_rows out).
Proof.
  unfold Stated.returned_events. cbn [app Cycles.submissions].
  rewrite submissions_app. cbn [Cycles.submissions]. rewrite app_nil_r.
  induction (Stated.ready_rows out) as [|row rows IH]; [reflexivity|].
  simpl. now rewrite IH.
Qed.

End Cycling.

Lemma returned_events_of_loop
  (bundled_adb : str) (self : MonitorThread) (out : str) :
  forallb Monitor.of_loop (Stated.returned_events bundled_adb self out)
  = true.
Proof.
  unfold Stated.returned_events. cbn [app forallb Monitor.of_loop andb].
  rewrite forallb_app, andb_true_iff. split; [|reflexivity].
  apply forallb_forall. intros ev Hin. apply in_map_iff in Hin.
  destruct Hin as (row & <- & _). reflexivity.
Qed.

Lemma returned_events_same_adb
  (bundled_adb : str) (m1 m2 : MonitorThread) (out : str) :
  monitor_adb m1 = monitor_adb m2 ->
  Stated.returned_events bundled_adb m1 out
  = Stated.returned_events bundled_adb m2 out.
Proof.
  intros H. unfold Stated.returned_events, Monitor.enumerate. now rewrite H.
Qed.

(** The monitor after [k] polls that all return [out]. *)
Lemma after_returning_polls
  (bundled_adb : str) (max : Z) (polls : Bridge) (out : str) :
  (forall k, exists rc,
      polls k (Monitor.enumerate (Monitor.init bundled_adb max))
      = Returns {| stdout := out; returncode := rc |}) ->
  forall k,
    let evs :=
      Stated.returned_events bundled_adb (Monitor.init bundled_adb max) out in
    let c := Monitor.exec bundled_adb polls
               (repeat Monitor.Mon (2 + k * S (length evs)))
               (Monitor.initial bundled_adb max) in
    Monitor.pc c = Monitor.InLoop [] None
    /\ Monitor.cycles c = k
    /\ running (Monitor.self c) = true
    /\ monitor_adb (Monitor.self c) = bundled_adb
    /\ Monitor.history c
       = [SetRunning true;
          Log (Monitor.started_msg (Monitor.init bundled_adb max))]
         ++ concat (repeat evs k).
Proof.
  intros Hpolls k evs. induction k as [|k IH].
  - repeat split.
  - replace (2 + S k * S (length evs))
      with ((2 + k * S (length evs)) + S (length evs)) by lia.
    rewrite repeat_app, (exec_app bundled_adb polls).
    set (c := Monitor.exec bundled_adb polls
                (repeat Monitor.Mon (2 + k * S (length evs)))
                (Monitor.initial bundled_adb max)) in *.
    cbv zeta in IH. destruct IH as (Hpc & Hcyc & Hrun & Hadb & Hhist).
    destruct (Hpolls k) as [rc Hk].
    assert (Hsame : Stated.returned_events bundled_adb (Monitor.self c) out
                    = evs)
      by (apply returned_events_same_adb; exact Hadb).
    assert (E : polls (Monitor.cycles c) (Monitor.enumerate (Monitor.self c))
                = Returns {| stdout := out; returncode := rc |}).
    { rewrite Hcyc. unfold Monitor.enumerate in *. now rewrite Hadb. }
    pose proof (returned_cycle bundled_adb polls c _ Hpc Hrun E) as Hstep.
    cbv zeta in Hstep. cbn [stdout] in Hstep. rewrite Hsame in Hstep.
    cbv zeta. rewrite Hstep.
    cbn [Monitor.pc Monitor.cycles Monitor.self Monitor.history].
    split; [reflexivity|]. split; [congruence|]. split; [|split].
    + rewrite after_events_running; [exact Hrun|].
      apply returned_events_of_loop.
    + now rewrite after_events_adb.
    + rewrite Hhist, <- app_assoc. f_equal.
      replace (S k) with (k + 1) by lia.
      rewrite repeat_app, concat_app. simpl. now rewrite app_nil_r.
Qed.

Lemma submissions_concat (evs : list Event) (k : nat) :
  Cycles.submissions (concat (repeat evs k))
  = concat (repeat (Cycles.submissions evs) k).
Proof.
  induction k as [|k IH]; [reflexivity|]. simpl.
  now rewrite submissions_app, IH.
Qed.

(** X8: the loop keeps no record of the devices it has provisioned.  When
    [k] polls in a row return the same table, the thread goes through [k]
    identical cycles and submits a worker for every connected device in
    each of them: each device is provisioned again every 2000 ms for as
    long as it stays connected. *)
Theorem every_cycle_resubmits
  (bundled_adb : str) (max : Z) (polls : Bridge) (out : str) :
  (forall k, exists rc,
      polls k (Monitor.enumerate (Monitor.init bundled_adb max))
      = Returns {| stdout := out; returncode := rc |}) ->
  forall k,
    let evs :=
      Stated.returned_events bundled_adb (Monitor.init bundled_adb max) out in
    let c := Monitor.exec bundled_adb polls
               (repeat Monitor.Mon (2 + k * S (length evs)))
               (Monitor.initial bundled_adb max) in
    Monitor.history c
    = [SetRunning true;
       Log (Monitor.started_msg (Monitor.init bundled_adb max))]
      ++ concat (repeat evs k)
    /\ Cycles.submissions (Monitor.history c)
       = concat
           (repeat
              (map (fun row =>
                      Worker.init bundled_adb (Stated.identifier row))
                   (filter Stated.is_ready (tl (splitlines out))))
              k).
Proof.
  intros Hpolls k evs c.
  destruct (after_returning_polls bundled_adb max polls out Hpolls k)
    as (_ & _ & _ & _ & Hhist).
  fold evs in Hhist. fold c in Hhist. split; [exact Hhist|].
  rewrite Hhist. cbn [app Cycles.submissions].
  rewrite submissions_concat. unfold evs.
  now rewrite submissions_returned.
Qed.

(** Two polls that find the same two connected devices. *)
Lemma every_cycle_resubmits_witness :
  Cycles.submissions
    (Monitor.history
       (Monitor.exec (lit "adb") (fun _ _ => Sample.ok Sample.two_of_three)
          (repeat Monitor.Mon 14) (Monitor.initial (lit "adb") 2)))
  = [Worker.init (lit "adb") (lit "emulator-5554");
     Worker.init (lit "adb") (lit "emulator-5556");
     Worker.init (lit "adb") (lit "emulator-5554");
     Worker.init (lit "adb") (lit "emulator-5556")].
Proof.
  apply (every_cycle_resubmits (lit "adb") 2
           (fun _ _ => Sample.ok Sample.two_of_three) Sample.two_of_three
           (fun _ => ex_intro _ 0%Z eq_refl) 2).
Defined.

(** ** [stop] before [run], and [stop] between two cycles *)

Section Races.

Variable bundled_adb : str.
Variable polls : Bridge.

(** Before the thread has taken a step, it is at the entry of [run], and
    [stop], once begun, has only its later statements left. *)
Lemma before_run (sched : list Monitor.Actor) :
  forall c,
    ~ In Monitor.Mon sched ->
    Monitor.pc c = Monitor.AtEntry ->
    Monitor.stop_todo c = Monitor.stop_body
    \/ incl (Monitor.stop_todo c) (tl Monitor.stop_body) ->
    let c' := Monitor.exec bundled_adb polls sched c in
    Monitor.pc c' = Monitor.AtEntry
    /\ (Monitor.stop_todo c' = Monitor.stop_body
        \/ incl (Monitor.stop_todo c') (tl Monitor.stop_body))
    /\ (In Monitor.Stop sched
        \/ incl (Monitor.stop_todo c) (tl Monitor.stop_body) ->
        incl (Monitor.stop_todo c') (tl Monitor.stop_body)).
Proof.
  induction sched as [|a sched IH]; intros c Hno Hpc Hstop c'.
  - subst c'. simpl. split; [exact Hpc|]. split; [exact Hstop|].
    intros [[] | H]; exact H.
  - assert (Hno' : ~ In Monitor.Mon sched) by (intros H; apply Hno; now right).
    destruct a as [| |i]; [exfalso; apply Hno; now left | |].
    + assert (Hpc1 : Monitor.pc (Monitor.stop_step c) = Monitor.AtEntry).
      { unfold Monitor.stop_step. now destruct (Monitor.stop_todo c). }
      assert (Hst1 : incl (Monitor.stop_todo (Monitor.stop_step c))
                       (tl Monitor.stop_body)).
      { unfold Monitor.stop_step. destruct Hstop as [Hbody | Hincl].
        - rewrite Hbody. simpl. apply incl_refl.
        - destruct (Monitor.stop_todo c) as [|ev rest] eqn:Est;
            [now rewrite Est|].
          simpl. intros x Hx. apply Hincl. now right. }
      destruct (IH (Monitor.stop_step c) Hno' Hpc1 (or_intror Hst1))
        as (H1 & H2 & H3).
      subst c'. split; [exact H1|]. split; [exact H2|].
      intros _. apply H3. now right.
    + destruct (IH (Monitor.finish_step i c) Hno' Hpc Hstop)
        as (H1 & H2 & H3).
      subst c'. split; [exact H1|]. split; [exact H2|].
      intros [[Hd | Hin] | Hincl]; [discriminate | |];
        apply H3; [now left | now right].
Qed.

Lemma step_unstoppable (c : Monitor.Config) (a : Monitor.Actor) :
  Cycles.unstoppable c ->
  Cycles.unstoppable (Monitor.step bundled_adb polls c a).
Proof.
  intros [Hstop Hpc]. destruct a as [| |i].
  - cbn [Monitor.step]. unfold Monitor.monitor_step.
    destruct (Monitor.pc c) as [| |[|ev todo] pending| |] eqn:Epc;
      try contradiction.
    + split; [exact Hstop | reflexivity].
    + split; [exact Hstop|]. simpl. now repeat split.
    + destruct Hpc as (Hrun & -> & _). rewrite Hrun.
      pose proof (cycle_never_raises bundled_adb (Monitor.self c) polls
                    (Monitor.cycles c)) as Hres.
      pose proof (cycle_of_loop bundled_adb polls (Monitor.self c)
                    (Monitor.cycles c)) as Hevs.
      destruct (Monitor.cycle bundled_adb (Monitor.self c) polls
                  (Monitor.cycles c)) as [[e|u] evs];
        simpl in Hres, Hevs; [discriminate|].
      split; [exact Hstop|]. simpl. now repeat split.
    + destruct Hpc as (Hrun & -> & Hall). simpl in Hall.
      apply andb_true_iff in Hall. destruct Hall as [Hev Hall].
      split; [exact Hstop|]. simpl. repeat split; try assumption.
      rewrite effect_of_loop; assumption.
  - cbn [Monitor.step]. unfold Monitor.stop_step.
    destruct (Monitor.stop_todo c) as [|ev rest] eqn:Est.
    { split; [now rewrite Est | exact Hpc]. }
    assert (Hev : In ev (tl Monitor.stop_body)) by (apply Hstop; now left).
    destruct (rest_of_stop ev (Monitor.self c) Hev) as [_ Hflag].
    split; [intros x Hx; apply Hstop; now right|].
    simpl. destruct (Monitor.pc c) as [| |todo pending| |];
      try exact Hpc; try congruence.
    all: destruct Hpc as (Hrun & Hp & Hall); repeat split; congruence.
  - split; [exact Hstop|]. simpl.
    destruct (Monitor.pc c) as [| |todo pending| |]; exact Hpc.
Qed.

Lemma exec_unstoppable (sched : list Monitor.Actor) :
  forall c,
    Cycles.unstoppable c ->
    Cycles.unstoppable (Monitor.exec bundled_adb polls sched c).
Proof.
  induction sched as [|a sched IH]; intros c H; [exact H|].
  apply IH. now apply step_unstoppable.
Qed.

(** Once the thread has left [run], it stays out. *)
Lemma exited_stays (sched : list Monitor.Actor) :
  forall c,
    Monitor.pc c = Monitor.Exited ->
    Monitor.pc (Monitor.exec bundled_adb polls sched c) = Monitor.Exited.
Proof.
  induction sched as [|a sched IH]; intros c Hpc; [exact Hpc|].
  change (Monitor.exec bundled_adb polls (a :: sched) c)
    with (Monitor.exec bundled_adb polls sched
            (Monitor.step bundled_adb polls c a)).
  apply IH. destruct a as [| |i]; cbn [Monitor.step].
  - unfold Monitor.monitor_step. now rewrite Hpc.
  - unfold Monitor.stop_step. now destruct (Monitor.stop_todo c).
  - exact Hpc.
Qed.

(** With the flag cleared and the thread at the test of line 122, its next
    step leaves [run]. *)
Lemma exits_at_the_test (sched : list Monitor.Actor) :
  forall c,
    Monitor.stopping c ->
    Monitor.pc c = Monitor.InLoop [] None ->
    In Monitor.Mon sched ->
    Monitor.pc (Monitor.exec bundled_adb polls sched c) = Monitor.Exited.
Proof.
  induction sched as [|a sched IH]; intros c Hs Hpc Hin; [contradiction|].
  destruct a as [| |i].
  - change (Monitor.exec bundled_adb polls (Monitor.Mon :: sched) c)
      with (Monitor.exec bundled_adb polls sched
              (Monitor.monitor_step bundled_adb polls c)).
    apply exited_stays. unfold Monitor.monitor_step.
    destruct Hs as (Hrun & _). now rewrite Hpc, Hrun.
  - destruct Hin as [Hd | Hin]; [discriminate|].
    change (Monitor.exec bundled_adb polls (Monitor.Stop :: sched) c)
      with (Monitor.exec bundled_adb polls sched (Monitor.stop_step c)).
    apply IH; [now apply stop_step_stopping | | exact Hin].
    unfold Monitor.stop_step. now destruct (Monitor.stop_todo c).
  - destruct Hin as [Hd | Hin]; [discriminate|].
    change (Monitor.exec bundled_adb polls (Monitor.Done i :: sched) c)
      with (Monitor.exec bundled_adb polls sched (Monitor.finish_step i c)).
    apply IH; [now apply finish_step_stopping | exact Hpc | exact Hin].
Qed.

End Races.

(** X9: a [stop] that clears the flag before the thread has executed line
    119 is lost: [run] sets the flag again when it begins, nothing clears
    it afterwards, and in every continuation the thread stays inside the
    loop - polling, counting and submitting - with the flag set. *)
Theorem stop_before_run_is_lost
  (bundled_adb : str) (polls : Bridge) (max : Z)
  (sched1 sched2 : list Monitor.Actor) :
  ~ In Monitor.Mon sched1 ->
  In Monitor.Stop sched1 ->
  let c := Monitor.exec bundled_adb polls (sched1 ++ sched2)
             (Monitor.initial bundled_adb max) in
  Monitor.alive c = true
  /\ (Monitor.pc c <> Monitor.AtEntry -> running (Monitor.self c) = true).
Proof.
  intros Hno Hstop c. subst c. rewrite (exec_app bundled_adb polls).
  destruct (before_run bundled_adb polls sched1
              (Monitor.initial bundled_adb max) Hno eq_refl
              (or_introl eq_refl)) as (Hpc & _ & Hincl).
  specialize (Hincl (or_introl Hstop)).
  set (c1 := Monitor.exec bundled_adb polls sched1
               (Monitor.initial bundled_adb max)) in *.
  assert (H1 : Cycles.unstoppable c1).
  { split; [exact Hincl|]. now rewrite Hpc. }
  destruct (exec_unstoppable bundled_adb polls sched2 c1 H1) as [_ H2].
  unfold Monitor.alive.
  destruct (Monitor.pc (Monitor.exec bundled_adb polls sched2 c1))
    as [| |todo pending| |]; try contradiction.
  - split; [reflexivity | congruence].
  - split; [reflexivity | intros _; exact H2].
  - split; [reflexivity | intros _; exact (proj1 H2)].
Qed.

(** [stop] runs to its end before the thread begins; the thread then goes
    through two cycles and more. *)
Lemma stop_before_run_is_lost_witness :
  Monitor.alive
    (Monitor.exec (lit "adb") (fun _ _ => Sample.ok Sample.two_of_three)
       (repeat Monitor.Stop 5 ++ repeat Monitor.Mon 20)
       (Monitor.initial (lit "adb") 2))
  = true.
Proof.
  refine (proj1 (stop_before_run_is_lost (lit "adb")
                   (fun _ _ => Sample.ok Sample.two_of_three) 2
                   (repeat Monitor.Stop 5) (repeat Monitor.Mon 20) _ _)).
  - simpl. intuition discriminate.
  - simpl. now left.
Defined.

(** X10: when [stop] begins while the thread is between two cycles - its
    sleep done or under way, the flag not yet tested - nothing is
    enumerated, counted or submitted any more: all that follows in the
    history are the statements of [stop], and the first step the thread
    takes leaves [run]. *)
Theorem stop_between_cycles_is_clean
  (bundled_adb : str) (polls : Bridge) (max : Z)
  (sched1 sched2 : list Monitor.Actor) :
  ~ In Monitor.Stop sched1 ->
  Monitor.pc (Monitor.exec bundled_adb polls sched1
                (Monitor.initial bundled_adb max))
  = Monitor.InLoop [] None ->
  let c := Monitor.exec bundled_adb polls sched1
             (Monitor.initial bundled_adb max) in
  let c' := Monitor.exec bundled_adb polls (Monitor.Stop :: sched2) c in
  (exists new,
      Monitor.history c' = Monitor.history c ++ SetRunning false :: new
      /\ Monitor.loop_events new = []
      /\ Cycles.submissions new = [])
  /\ Monitor.cycles c' = Monitor.cycles c
  /\ (In Monitor.Mon sched2 -> Monitor.pc c' = Monitor.Exited).
Proof.
  intros Hno Hpc c c'.
  assert (Hloop : Monitor.looping bundled_adb max c)
    by (apply exec_looping; [exact Hno | apply initial_looping]).
  assert (Hentry : Monitor.pc c <> Monitor.AtEntry)
    by (unfold c; rewrite Hpc; discriminate).
  destruct (stop_begins bundled_adb max c Hloop Hentry)
    as (Hs1 & Hh1 & Hr1 & Hc1 & Ht1).
  destruct (exec_stopping bundled_adb polls sched2 _ Hs1) as [Hs Hw].
  change (Monitor.exec bundled_adb polls sched2 (Monitor.stop_step c))
    with c' in Hs, Hw.
  destruct Hw as (Hcyc & [new Hnew] & Hl & _).
  rewrite Hnew, Hh1, Hr1 in Hl. unfold Monitor.remaining at 2 in Hl.
  fold c in Hpc. rewrite Hpc in Hl. unfold Monitor.loop_events in Hl.
  rewrite filter_app, <- app_assoc, app_nil_r in Hl.
  rewrite <- (app_nil_r (filter Monitor.of_loop
                           (Monitor.history c ++ [SetRunning false]))) in Hl
    at 2.
  apply app_inv_head in Hl. apply app_eq_nil in Hl. destruct Hl as [Hl _].
  split; [|split].
  - exists new. split; [|split].
    + rewrite Hnew, Hh1, <- app_assoc. reflexivity.
    + exact Hl.
    + clear - Hl. unfold Monitor.loop_events in Hl.
      induction new as [|ev new IH]; [reflexivity|].
      simpl in Hl. destruct ev; simpl in *; try discriminate; now apply IH.
  - congruence.
  - intros Hin.
    apply (exits_at_the_test bundled_adb polls sched2 (Monitor.stop_step c));
      [exact Hs1 | | exact Hin].
    unfold Monitor.stop_step. destruct (Monitor.stop_todo c); exact Hpc.
Qed.

(** [stop] begins after the sleep of the first cycle. *)
Lemma stop_between_cycles_is_clean_witness :
  Monitor.pc
    (Monitor.exec (lit "adb") (fun _ _ => Sample.ok Sample.two_of_three)
       (Monitor.Stop :: repeat Monitor.Stop 4 ++ repeat Monitor.Mon 1)
       (Monitor.exec (lit "adb") (fun _ _ => Sample.ok Sample.two_of_three)
          (repeat Monitor.Mon 8) (Monitor.initial (lit "adb") 2)))
  = Monitor.Exited.
Proof.
  apply (stop_between_cycles_is_clean (lit "adb")
           (fun _ _ => Sample.ok Sample.two_of_three) 2
           (repeat Monitor.Mon 8)
           (repeat Monitor.Stop 4 ++ repeat Monitor.Mon 1)).
  - simpl. intuition discriminate.
  - reflexivity.
  - simpl. intuition.
Defined.

(** ** The window *)

Lemma contains_char (s : str) (c : char) :
  In c s -> Gui.contains s [c] = true.
Proof.
  induction s as [|x s IH]; simpl; [tauto|].
  intros [-> | Hin].
  - rewrite N.eqb_refl. now destruct s.
  - rewrite (IH Hin). apply orb_true_r.
Qed.

Section Window.

Variable lower : str -> str.
Variable bundled_adb : str.

Lemma handle_consistent (w : Gui.MainWindow) (a : Gui.Action) :
  Gui.consistent bundled_adb w ->
  Gui.consistent bundled_adb (fst (Gui.handle lower bundled_adb w a)).
Proof.
  intros [Hbtn Hmon].
  destruct a as [is_running ts|ts|d ts|ts|text ts|count]; simpl.
  - unfold Gui.start_monitoring.
    destruct (Gui.monitor_thread w) as [m|] eqn:Em.
    + destruct is_running; simpl.
      * split; [exact Hbtn | now rewrite Em].
      * now repeat split.
    + simpl. now repeat split.
  - split; [reflexivity|]. simpl. split; [reflexivity|].
    intros H. apply (f_equal (@length char)) in H. discriminate.
  - destruct d as [|entered]; simpl; [now split|]. now split.
  - now split.
  - now split.
  - now split.
Qed.

Lemma handle_all_consistent (actions : list Gui.Action) :
  forall w,
    Gui.consistent bundled_adb w ->
    Gui.consistent bundled_adb
      (fst (Gui.handle_all lower bundled_adb actions w)).
Proof.
  induction actions as [|a actions IH]; intros w Hw; [exact Hw|].
  simpl. pose proof (handle_consistent w a Hw) as H1.
  destruct (Gui.handle lower bundled_adb w a) as [w1 calls1].
  specialize (IH w1 H1).
  destruct (Gui.handle_all lower bundled_adb actions w1) as [w2 calls2].
  exact IH.
Qed.

End Window.

(** X11: whatever is clicked, opened or signalled, in any order and
    whatever the stored setting was, the controls agree with the monitor:
    the Start button is enabled and the Stop button disabled exactly when
    the window holds no monitor thread, the status reads "Provisioning
    active" exactly when it holds one, and that monitor and its pool carry
    the limit it was created with. *)
Theorem controls_follow_the_monitor
  (lower : str -> str) (bundled_adb : str) (stored : option Z)
  (actions : list Gui.Action) :
  Gui.consistent bundled_adb
    (fst (Gui.handle_all lower bundled_adb actions (Gui.init stored))).
Proof.
  apply handle_all_consistent. split; [reflexivity|]. simpl.
  split; [reflexivity|].
  intros H. apply (f_equal (@length char)) in H. discriminate.
Qed.

(** X12: accepting the settings dialog leaves the monitor that is running
    as it is, with the limit it was started with; the new limit, always
    from 1 to 120 - also when the dialog is accepted untouched on a stored
    value outside that range - is stored and is the limit, of the monitor
    and of its pool, of the monitor created by the next Start after a
    Stop. *)
Theorem settings_apply_to_the_next_start
  (lower : str -> str) (bundled_adb : str) (w : Gui.MainWindow)
  (entered : option Z) (is_running : bool) (ts1 ts2 ts3 : str) :
  let w1 := Gui.show_settings lower (Gui.Accepted entered) ts1 w in
  let v := Gui.window_max_devices w1 in
  Gui.monitor_thread w1 = Gui.monitor_thread w
  /\ (1 <= v <= 120)%Z
  /\ Gui.stored_max_devices w1 = Some v
  /\ snd (Gui.start_monitoring lower bundled_adb is_running ts3
            (fst (Gui.stop_monitoring lower ts2 w1)))
     = [Gui.ThreadStarted (Monitor.init bundled_adb v)]
  /\ max_devices (Monitor.init bundled_adb v) = v
  /\ maxThreadCount (threadpool (Monitor.init bundled_adb v)) = v.
Proof.
  cbv zeta. cbn [Gui.show_settings Gui.append_log Gui.window_max_devices
                 Gui.monitor_thread Gui.stored_max_devices].
  repeat split; unfold Gui.spin; lia.
Qed.

(** X13: a line that holds an exclamation mark is shown in the failure
    colour.  So every failure line of a worker or of the monitor - boot
    timeout, failed boot check, poll error - is shown as a failure,
    whatever the serial or the text of the exception; and so is any other
    line, a "Done" line included, whose serial holds one. *)
Theorem failure_lines_are_highlighted
  (lower : str -> str) (self : DeviceWorker) (e : Exn) (ts : str) :
  (forall s, In 33%N s -> In 33%N (lower s)) ->
  (forall text,
      In 33%N text ->
      Gui.render lower ts text
      = lit "[" ++ ts ++ lit "] " ++ Gui.RED ++ text ++ lit "</span>")
  /\ Gui.is_failure lower (Worker.boot_timeout_msg self) = true
  /\ Gui.is_failure lower (Worker.boot_failed_msg e) = true
  /\ Gui.is_failure lower (Monitor.poll_error_msg e) = true.
Proof.
  intros Hlower.
  assert (Hbang : forall text, In 33%N text -> Gui.is_failure lower text = true).
  { intros text Hin. unfold Gui.is_failure, Gui.FAILURE_WORDS.
    cbn [existsb]. change (lit "!") with [33%N].
    apply orb_true_iff. left.
    exact (contains_char (lower text) 33%N (Hlower text Hin)). }
  split; [|split; [|split]].
  - intros text Hin. unfold Gui.render. now rewrite (Hbang text Hin).
  - apply Hbang. right. left. reflexivity.
  - apply Hbang. right. left. reflexivity.
  - apply Hbang. right. left. reflexivity.
Qed.

Lemma ascii_lower_keeps_bang (s : str) :
  In 33%N s -> In 33%N (Gui.ascii_lower s).
Proof.
  intros Hin. unfold Gui.ascii_lower.
  exact (in_map (fun c => if ((65 <=? c) && (c <=? 90))%N
                          then (c + 32)%N else c) s 33%N Hin).
Qed.

(** The boot timeout of a device, with the ASCII letters lowered. *)
Lemma failure_lines_are_highlighted_witness :
  Gui.is_failure Gui.ascii_lower (Worker.boot_timeout_msg Sample.worker)
  = true.
Proof.
  apply (failure_lines_are_highlighted Gui.ascii_lower Sample.worker
           Sample.too_many_files (lit "12:00:00") ascii_lower_keeps_bang).
Defined.

(** ** From a poll to the window *)

Lemma deliver_starts
  (lower : str -> str) (stamps : nat -> str) (bundled_adb : str)
  (rows : list str) :
  forall i evs w,
    Wiring.deliver lower stamps i
      (map (fun row =>
              PoolStart (Worker.init bundled_adb (Stated.identifier row)))
           rows ++ evs) w
    = Wiring.deliver lower stamps (length rows + i) evs w.
Proof.
  induction rows as [|row rows IH]; intros i evs w; [reflexivity|].
  simpl. rewrite IH. f_equal. lia.
Qed.

(** X14: the device label follows the polls that succeed and only those.
    After a cycle whose enumeration returns, the label reads "Devices: "
    and the number of connected-device rows, and nothing is added to the
    log view; after a cycle whose enumeration raises, the label is what it
    was - the count of an earlier poll - and one block is added to the log
    view, the poll error in the failure colour. *)
Theorem device_label_follows_the_polls
  (lower : str -> str) (stamps : nat -> str) (bundled_adb : str)
  (self : MonitorThread) (polls : Bridge) (n : nat) (w : Gui.MainWindow) :
  (forall s, In 33%N s -> In 33%N (lower s)) ->
  let w' := Wiring.deliver lower stamps 0
              (snd (Monitor.cycle bundled_adb self polls n)) w in
  (forall r,
      polls n (Monitor.enumerate self) = Returns r ->
      Gui.device_label w'
      = lit "Devices: "
        ++ of_int (Z.of_nat (length (Stated.ready_rows (stdout r))))
      /\ Gui.appended w' = Gui.appended w)
  /\ (forall e,
        polls n (Monitor.enumerate self) = Raises e ->
        Gui.device_label w' = Gui.device_label w
        /\ Gui.appended w'
           = Gui.appended w
             ++ [lit "[" ++ stamps 1 ++ lit "] " ++ Gui.RED
                 ++ lit "[!] Poll error: " ++ exn_str e ++ lit "</span>"]).
Proof.
  intros Hlower w'. subst w'. split.
  - intros r E. rewrite (cycle_returns bundled_adb self polls n r E).
    unfold Stated.returned_events. cbn [snd app Wiring.deliver].
    rewrite deliver_starts. cbn [Wiring.deliver]. split; reflexivity.
  - intros e E. rewrite (cycle_raises bundled_adb self polls n e E).
    cbn [snd Wiring.deliver]. split; [reflexivity|].
    cbn [Gui.append_log Gui.appended]. unfold Gui.render.
    assert (Hred : Gui.is_failure lower (Monitor.poll_error_msg e) = true).
    { unfold Gui.is_failure, Gui.FAILURE_WORDS. cbn [existsb].
      apply orb_true_iff. left.
      apply (contains_char (lower (Monitor.poll_error_msg e)) 33%N).
      apply Hlower. right. left. reflexivity. }
    rewrite Hred. unfold Monitor.poll_error_msg.
    now rewrite <- !app_assoc.
Qed.

(** A poll that finds two connected devices among three rows. *)
Lemma device_label_follows_the_polls_witness :
  Gui.device_label
    (Wiring.deliver Gui.ascii_lower (fun _ => lit "12:00:00") 0
       (snd (Monitor.cycle (lit "adb") Sample.monitor
               (fun _ _ => Sample.ok Sample.two_of_three) 0))
       (Gui.init None))
  = lit "Devices: 2".
Proof.
  refine (proj1 (proj1 (device_label_follows_the_polls Gui.ascii_lower
                          (fun _ => lit "12:00:00") (lit "adb")
                          Sample.monitor
                          (fun _ _ => Sample.ok Sample.two_of_three) 0
                          (Gui.init None) ascii_lower_keeps_bang)
                   {| stdout := Sample.two_of_three; returncode := 0 |}
                   eq_refl)).
Defined.

(** ** The rows that a poll selects *)









